(** * parsetcx: a shallow embedding of [parsetcx.py] and its specification

    The module reads a Training Center Database document and exposes one
    channel object per metric.  The embedding follows the source class by
    class: every Python class is a Rocq module of the same name, every method
    a definition of the same name.

    Modelling conventions.
    - A computation that may raise returns a [result]; the exception classes
      are those the code can meet.  [None] is [option]'s [None].
    - The lxml tree is an [Element] tree; [xpath]/[findall] follow the
      child steps of the selector strings the code writes.
    - [float(...)] and [datetime.strptime(...)] are library functions of the
      Python runtime: they are taken as the two fields of the class
      [Builtins].  Theorems hold for every reading of them.
    - A Python float is modelled as a rational ([Q]) with exact arithmetic:
      rounding, infinities and NaN are outside the model.  What is stated
      of a computed value is therefore stated with the program's own
      expression, operation for operation, or with comparisons, which are
      exact on floats; no statement rests on an identity of the rationals
      that rounding breaks.  A naive [datetime] is a count of microseconds
      ([Z]); so is a [timedelta].
    - A file system maps a path to what parsing the file there gives.  The
      one failure of [open] it knows is the missing file; what else the
      operating system or the decoder may raise is outside the model, and
      nothing is stated about its absence. *)

From Stdlib Require Import List ZArith QArith String Ascii Bool Lia.
Import ListNotations.

Set Implicit Arguments.
Set Warnings "-register-all".

(** ** Exceptions and results *)

Inductive exn : Type :=
| IndexError
| NameError
| UnboundLocalError
| TypeError
| ValueError
| ZeroDivisionError
| FileNotFoundError
| XMLSyntaxError.

Inductive result (A : Type) : Type :=
| Ok (a : A)
| Raise (e : exn).

Arguments Ok {A} a.
Arguments Raise {A} e.

Definition bind {A B : Type} (r : result A) (k : A -> result B) : result B :=
  match r with
  | Ok a => k a
  | Raise e => Raise e
  end.

Notation "x <- e ;; k" := (bind e (fun x => k))
  (at level 61, e at next level, right associativity).

(** [try: body  except IndexError: handler].  An exception raised by the
    handler itself propagates. *)
Definition try_except_IndexError {A : Type} (body handler : result A) : result A :=
  match body with
  | Raise IndexError => handler
  | r => r
  end.

(** [for x in l: s = body s x], stopping at the first exception. *)
Fixpoint for_ {A S : Type} (l : list A) (s : S) (body : S -> A -> result S) : result S :=
  match l with
  | [] => Ok s
  | x :: l' => s' <- body s x ;; for_ l' s' body
  end.

(** [[f x for x in l]] *)
Fixpoint comprehension {A B : Type} (f : A -> result B) (l : list A) : result (list B) :=
  match l with
  | [] => Ok []
  | x :: l' => y <- f x ;; ys <- comprehension f l' ;; Ok (y :: ys)
  end.

(** ** Names

    A name is bound or not at the point where it is read.  Reading an
    unbound local raises [UnboundLocalError]; reading a name that is neither
    a local, a module global nor a builtin raises [NameError]. *)

Inductive binding (A : Type) : Type :=
| Unbound
| Bound (a : A).

Arguments Unbound {A}.
Arguments Bound {A} a.

Definition load_fast {A : Type} (b : binding A) : result A :=
  match b with
  | Unbound => Raise UnboundLocalError
  | Bound a => Ok a
  end.

Definition load_global {A : Type} (b : binding A) : result A :=
  match b with
  | Unbound => Raise NameError
  | Bound a => Ok a
  end.

(** ** Lists, numbers and strings of the runtime *)

(** [l[i]]: a negative index counts from the end. *)
Definition getitem {A : Type} (l : list A) (i : Z) : result A :=
  let n := Z.of_nat (List.length l) in
  let j := if (i <? 0)%Z then (i + n)%Z else i in
  if ((0 <=? j) && (j <? n))%Z then
    match nth_error l (Z.to_nat j) with
    | Some x => Ok x
    | None => Raise IndexError
    end
  else Raise IndexError.

Definition datetime : Type := Z.
Definition timedelta : Type := Z.

(** [td.seconds]: a timedelta is normalised to days, seconds in
    [0, 86400) and microseconds in [0, 10^6); this is the middle field. *)
Definition timedelta_seconds (td : timedelta) : Z := ((td / 1000000) mod 86400)%Z.

(** [x / y] on floats (and on ints, giving a float) *)
Definition truediv (x y : Q) : result Q :=
  if Qeq_bool y 0 then Raise ZeroDivisionError else Ok (x / y)%Q.

Definition Qltb (x y : Q) : bool := negb (Qle_bool y x).

(** [max(l)]: the first of the largest items *)
Definition py_max (l : list Q) : result Q :=
  match l with
  | [] => Raise ValueError
  | x :: l' => Ok (fold_left (fun m y => if Qltb m y then y else m) l' x)
  end.

(** [min(l)]: the first of the smallest items *)
Definition py_min (l : list Q) : result Q :=
  match l with
  | [] => Raise ValueError
  | x :: l' => Ok (fold_left (fun m y => if Qltb y m then y else m) l' x)
  end.

(** [sum(l)] *)
Definition py_sum (l : list Q) : Q := fold_left Qplus l 0%Q.

(** [enumerate(l)] *)
Definition enumerate {A : Type} (l : list A) : list (nat * A) :=
  combine (seq 0 (List.length l)) l.

Definition lower_ascii (c : ascii) : ascii :=
  let n := nat_of_ascii c in
  if (65 <=? n)%nat && (n <=? 90)%nat then ascii_of_nat (n + 32) else c.

(** [s.lower()] *)
Fixpoint lower (s : string) : string :=
  match s with
  | EmptyString => EmptyString
  | String c s' => String (lower_ascii c) (lower s')
  end.

(** [s.endswith(suffix)] *)
Definition endswith (s suffix : string) : bool :=
  let n := String.length s in
  let k := String.length suffix in
  (k <=? n)%nat && String.eqb (substring (n - k) k s) suffix.

(** [str(text)] for an element's text *)
Definition str (text : option string) : string :=
  match text with
  | None => "None"%string
  | Some s => s
  end.

(** ['...' + text]: concatenation with something that is not a string is a
    [TypeError]. *)
Definition str_add (s : string) (text : option string) : result string :=
  match text with
  | None => Raise TypeError
  | Some s' => Ok (s ++ s')%string
  end.

(** The two library functions the extraction relies on.  [None] stands for
    the [ValueError] they raise on a string they do not accept. *)
Class Builtins : Type := {
  float_of_str : string -> option Q;
  strptime : string -> string -> option datetime
}.

(** [float(text)] *)
Definition float {B : Builtins} (text : option string) : result Q :=
  match text with
  | None => Raise TypeError
  | Some s =>
      match float_of_str s with
      | Some x => Ok x
      | None => Raise ValueError
      end
  end.

(** [datetime.strptime(s, fmt)] *)
Definition datetime_strptime {B : Builtins} (s fmt : string) : result datetime :=
  match strptime s fmt with
  | Some t => Ok t
  | None => Raise ValueError
  end.

(** ** The document tree *)

Inductive Element : Type :=
| Elem (tag : string) (text : option string) (children : list Element).

Definition tag (e : Element) : string :=
  match e with Elem t _ _ => t end.

Definition text (e : Element) : option string :=
  match e with Elem _ t _ => t end.

Definition children (e : Element) : list Element :=
  match e with Elem _ _ c => c end.

(** The steps of a selector: the parts between slashes. *)
Fixpoint split_slash (acc : string) (s : string) : list string :=
  match s with
  | EmptyString => [acc]
  | String c s' =>
      if Ascii.eqb c "/"%char then acc :: split_slash EmptyString s'
      else split_slash (acc ++ String c EmptyString)%string s'
  end.

Definition steps (path : string) : list string := split_slash EmptyString path.

(** Child steps from a node: [.] stays, a name moves to the children of
    that (prefixed) tag, in document order. *)
Fixpoint select (st : list string) (e : Element) : list Element :=
  match st with
  | [] => [e]
  | s :: st' =>
      if String.eqb s "."%string then select st' e
      else flat_map (select st') (filter (fun c => String.eqb (tag c) s) (children e))
  end.

(** [e.xpath(path, namespaces=NS)] for the relative child paths of the code *)
Definition xpath (e : Element) (path : string) : list Element := select (steps path) e.

(** [e.findall(path, namespaces=NS)] *)
Definition findall (e : Element) (path : string) : list Element := select (steps path) e.

(** [tree.xpath('/name')]: the root element when it has that name *)
Definition tree_xpath (tree : Element) (path : string) : list Element :=
  match steps path with
  | e :: name :: st =>
      if String.eqb e EmptyString && String.eqb (tag tree) name then select st tree else []
  | _ => []
  end.

(** The files the parser may be pointed at. *)
Inductive File : Type :=
| Xml (tree : Element)
| NotXml.

Definition FileSystem : Type := string -> option File.

Definition open (fs : FileSystem) (path : string) : result File :=
  match fs path with
  | Some f => Ok f
  | None => Raise FileNotFoundError
  end.

Definition etree_parse (f : File) : result Element :=
  match f with
  | Xml tree => Ok tree
  | NotXml => Raise XMLSyntaxError
  end.

(** ** class Measure

    The base class: the shared extraction and the sequence protocol, both
    over the attribute [data] of the instance. *)
Module Measure.

Record t (A : Type) : Type := mk { data : option (list A) }.

Definition get_data {B : Builtins} (root : Element) (var : string)
  : result (option (list Q)) :=
  if (0 <? List.length (findall root ("./ns:Lap/ns:Track/ns:Trackpoint/ns:" ++ var)))%nat
  then
    data <- for_ (xpath root "./ns:Lap") [] (fun data lap =>
      for_ (xpath lap "./ns:Track/ns:Trackpoint") data (fun data trkpt =>
        try_except_IndexError
          (e <- getitem (xpath trkpt ("./ns:" ++ var)) 0 ;;
           x <- float (text e) ;;
           Ok (data ++ [x]))
          (x <- getitem data (-1) ;;
           Ok (data ++ [x])))) ;;
    Ok (Some data)
  else Ok None.

(** [len(self.data)] *)
Definition __len__ {A : Type} (self_data : option (list A)) : result nat :=
  match self_data with
  | None => Raise TypeError
  | Some l => Ok (List.length l)
  end.

(** [self.data[index]] *)
Definition __getitem__ {A : Type} (self_data : option (list A)) (index : Z) : result A :=
  match self_data with
  | None => Raise TypeError
  | Some l => getitem l index
  end.

(** [yield from self.data] *)
Definition __iter__ {A : Type} (self_data : option (list A)) : result (list A) :=
  match self_data with
  | None => Raise TypeError
  | Some l => Ok l
  end.

(** Truth of an instance: no [__bool__] is defined, so Python asks
    [__len__]. *)
Definition __bool__ {A : Type} (self_data : option (list A)) : result bool :=
  n <- __len__ self_data ;; Ok (negb (n =? 0)%nat).

End Measure.

(** ** class AbsTime *)
Module AbsTime.

Definition t : Type := Measure.t datetime.

Definition __init__ (abs_time : list datetime) : t := Measure.mk (Some abs_time).

Definition start (self : t) : result (option datetime) :=
  match Measure.data self with
  | Some (x :: l) => d <- getitem (x :: l) 0 ;; Ok (Some d)
  | _ => Ok None
  end.

Definition finish (self : t) : result (option datetime) :=
  match Measure.data self with
  | Some (x :: l) => d <- getitem (x :: l) (-1) ;; Ok (Some d)
  | _ => Ok None
  end.

End AbsTime.

(** ** class Time *)
Module Time.

Record t : Type := mk { data : option (list timedelta); absolute : AbsTime.t }.

(** In the handler the local [data] is read before the assignment that
    follows the loops: it is unbound there. *)
Definition get_data {B : Builtins} (root : Element)
  : result (option (list timedelta * list datetime)) :=
  if (0 <? List.length (findall root "./ns:Lap/ns:Track/ns:Trackpoint/ns:Time"))%nat
  then
    let data : binding (list timedelta) := Unbound in
    raw <- for_ (xpath root "./ns:Lap") [] (fun raw lap =>
      for_ (xpath lap "./ns:Track/ns:Trackpoint") raw (fun raw trkpt =>
        try_except_IndexError
          (e <- getitem (xpath trkpt "./ns:Time") 0 ;;
           x <- datetime_strptime (str (text e)) "%Y-%m-%dT%H:%M:%S.%fZ" ;;
           Ok (raw ++ [x]))
          (data <- load_fast data ;;
           x <- getitem data (-1) ;;
           Ok (raw ++ [x])))) ;;
    data <- comprehension (fun x => r0 <- getitem raw 0 ;; Ok (x - r0)%Z) raw ;;
    Ok (Some (data, raw))
  else Ok None.

(** [self.data, abs_time = self.get_data(root)]: unpacking [None] is a
    [TypeError]. *)
Definition __init__ {B : Builtins} (root : Element) : result t :=
  r <- get_data root ;;
  match r with
  | None => Raise TypeError
  | Some (data, abs_time) => Ok (mk (Some data) (AbsTime.__init__ abs_time))
  end.

Definition duration (self : t) : result (option timedelta) :=
  match data self with
  | Some (x :: l) => d <- getitem (x :: l) (-1) ;; Ok (Some d)
  | _ => Ok None
  end.

Definition start (self : t) : result (option datetime) :=
  match data self with
  | Some (_ :: _) => d <- Measure.__getitem__ (Measure.data (absolute self)) 0 ;; Ok (Some d)
  | _ => Ok None
  end.

Definition finish (self : t) : result (option datetime) :=
  match data self with
  | Some (_ :: _) =>
      d <- Measure.__getitem__ (Measure.data (absolute self)) (-1) ;; Ok (Some d)
  | _ => Ok None
  end.

End Time.

(** The three statistics shared by HeartRate, Speed, Cadence and Altitude. *)
Module Stats.

Definition min (self : Measure.t Q) : result (option Q) :=
  match Measure.data self with
  | Some (x :: l) => m <- py_min (x :: l) ;; Ok (Some m)
  | _ => Ok None
  end.

Definition max (self : Measure.t Q) : result (option Q) :=
  match Measure.data self with
  | Some (x :: l) => m <- py_max (x :: l) ;; Ok (Some m)
  | _ => Ok None
  end.

Definition average (self : Measure.t Q) : result (option Q) :=
  match Measure.data self with
  | Some (x :: l) =>
      a <- truediv (py_sum (x :: l)) (inject_Z (Z.of_nat (List.length (x :: l)))) ;;
      Ok (Some a)
  | _ => Ok None
  end.

End Stats.

(** ** class HeartRate *)
Module HeartRate.

Definition t : Type := Measure.t Q.

Definition __init__ {B : Builtins} (root : Element) : result t :=
  let var := "HeartRateBpm/ns:Value"%string in
  data <- Measure.get_data root var ;; Ok (Measure.mk data).

Definition min : t -> result (option Q) := Stats.min.
Definition max : t -> result (option Q) := Stats.max.
Definition average : t -> result (option Q) := Stats.average.

End HeartRate.

(** ** class Distance *)
Module Distance.

Definition t : Type := Measure.t Q.

Definition __init__ {B : Builtins} (root : Element) : result t :=
  let var := "DistanceMeters"%string in
  data <- Measure.get_data root var ;; Ok (Measure.mk data).

(** The name [li] read in the loop is bound nowhere: not in [raw], not at
    module level, not among the builtins. *)
Definition raw (self : t) : result (option (list Q)) :=
  match Measure.data self with
  | Some (x :: l) =>
      let li : binding (list Q) := Unbound in
      cumdist <- for_ (enumerate (x :: l)) [] (fun cumdist iv =>
        let '(i, val) := iv in
        if (i =? 0)%nat then Ok (cumdist ++ [val])
        else
          li <- load_global li ;;
          Ok (cumdist ++ [(val - py_sum li)%Q])) ;;
      Ok (Some cumdist)
  | _ => Ok None
  end.

Definition total (self : t) : result (option Q) :=
  match Measure.data self with
  | Some (x :: l) => d <- getitem (x :: l) (-1) ;; Ok (Some d)
  | _ => Ok None
  end.

End Distance.

(** ** class Speed *)
Module Speed.

Definition t : Type := Measure.t Q.

Definition __init__ {B : Builtins} (root : Element) : result t :=
  let var := "Extensions/ns3:TPX/ns3:Speed"%string in
  data <- Measure.get_data root var ;; Ok (Measure.mk data).

Definition min : t -> result (option Q) := Stats.min.
Definition max : t -> result (option Q) := Stats.max.
Definition average : t -> result (option Q) := Stats.average.

End Speed.

(** ** class Cadence *)
Module Cadence.

Definition t : Type := Measure.t Q.

Definition __init__ {B : Builtins} (root : Element) : result t :=
  let var := "Extensions/ns3:TPX/ns3:RunCadence"%string in
  data <- Measure.get_data root var ;; Ok (Measure.mk data).

Definition min : t -> result (option Q) := Stats.min.
Definition max : t -> result (option Q) := Stats.max.
Definition average : t -> result (option Q) := Stats.average.

End Cadence.

(** ** class Location *)
Module Location.

Definition t : Type := Measure.t (Q * Q).

Definition get_data {B : Builtins} (root : Element) : result (option (list (Q * Q))) :=
  if (0 <? List.length (findall root "./ns:Lap/ns:Track/ns:Trackpoint/ns:Position"))%nat
  then
    data <- for_ (xpath root "./ns:Lap") [] (fun data lap =>
      for_ (xpath lap "./ns:Track/ns:Trackpoint") data (fun data trkpt =>
        try_except_IndexError
          (e <- getitem (xpath trkpt "./ns:Position/ns:LatitudeDegrees") 0 ;;
           lat <- float (text e) ;;
           e <- getitem (xpath trkpt "./ns:Position/ns:LongitudeDegrees") 0 ;;
           lon <- float (text e) ;;
           Ok (data ++ [(lat, lon)]))
          (x <- getitem data (-1) ;;
           Ok (data ++ [x])))) ;;
    Ok (Some data)
  else Ok None.

Definition __init__ {B : Builtins} (root : Element) : result t :=
  data <- get_data root ;; Ok (Measure.mk data).

Definition start (self : t) : result (option (Q * Q)) :=
  match Measure.data self with
  | Some (x :: l) => d <- getitem (x :: l) 0 ;; Ok (Some d)
  | _ => Ok None
  end.

Definition finish (self : t) : result (option (Q * Q)) :=
  match Measure.data self with
  | Some (x :: l) => d <- getitem (x :: l) (-1) ;; Ok (Some d)
  | _ => Ok None
  end.

Definition latitude (self : t) : result (option (list Q)) :=
  match Measure.data self with
  | Some (x :: l) => Ok (Some (map fst (x :: l)))
  | _ => Ok None
  end.

Definition longitude (self : t) : result (option (list Q)) :=
  match Measure.data self with
  | Some (x :: l) => Ok (Some (map snd (x :: l)))
  | _ => Ok None
  end.

End Location.

(** ** class Altitude *)
Module Altitude.

Definition t : Type := Measure.t Q.

Definition __init__ {B : Builtins} (root : Element) : result t :=
  let var := "AltitudeMeters"%string in
  data <- Measure.get_data root var ;; Ok (Measure.mk data).

Definition min : t -> result (option Q) := Stats.min.
Definition max : t -> result (option Q) := Stats.max.
Definition average : t -> result (option Q) := Stats.average.

Definition change (self : t) : result (option (list Q)) :=
  match Measure.data self with
  | Some (x :: l) =>
      alt_delta <- for_ (enumerate (x :: l)) [] (fun alt_delta iv =>
        let '(i, val) := iv in
        if (i =? 0)%nat then Ok (alt_delta ++ [(val - val)%Q])
        else
          prev <- getitem (x :: l) (Z.of_nat i - 1) ;;
          Ok (alt_delta ++ [(val - prev)%Q])) ;;
      Ok (Some alt_delta)
  | _ => Ok None
  end.

End Altitude.

(** ** class Pace *)
Module Pace.

Definition t : Type := Measure.t Q.

(** [if _time and dist:] asks each instance for its truth, which goes
    through [__len__] and so through [len(self.data)]. *)
Definition get_data (_time : Time.t) (dist : Distance.t) : result (option (list Q)) :=
  cond <- (b <- Measure.__bool__ (Time.data _time) ;;
           if b then Measure.__bool__ (Measure.data dist) else Ok false) ;;
  if (cond : bool) then
    ts <- Measure.__iter__ (Time.data _time) ;;
    ds <- Measure.__iter__ (Measure.data dist) ;;
    pace <- for_ (combine ts ds) [] (fun pace td =>
      let '(t, d) := td in
      t0 <- Measure.__getitem__ (Time.data _time) 0 ;;
      m <- truediv (inject_Z (timedelta_seconds (t - t0)%Z)) 60 ;;
      k <- truediv d 1000 ;;
      p <- truediv m k ;;
      Ok (pace ++ [p])) ;;
    Ok (Some pace)
  else Ok None.

Definition __init__ (_time : Time.t) (dist : Distance.t) : result t :=
  data <- get_data _time dist ;; Ok (Measure.mk data).

Definition seconds (self : t) : result (option (list Q)) :=
  match Measure.data self with
  | Some (x :: l) => Ok (Some (map (fun x => x * 60)%Q (x :: l)))
  | _ => Ok None
  end.

Definition min (self : t) : result (option Q) :=
  match Measure.data self with
  | Some (x :: l) => m <- py_max (x :: l) ;; Ok (Some m)
  | _ => Ok None
  end.

Definition max (self : t) : result (option Q) :=
  match Measure.data self with
  | Some (x :: l) =>
      let li := filter (fun x => Qltb 0 x) (x :: l) in
      m <- py_min li ;; Ok (Some m)
  | _ => Ok None
  end.

Definition average (self : t) : result (option Q) :=
  match Measure.data self with
  | Some (x :: l) => a <- getitem (x :: l) (-1) ;; Ok (Some a)
  | _ => Ok None
  end.

End Pace.

(** ** class TCXParser

    An attribute that [__init__] never assigned is [None] here. *)
Module TCXParser.

Record t : Type := mk {
  time : option Time.t;
  heartrate : option HeartRate.t;
  distance : option Distance.t;
  speed : option Speed.t;
  cadence : option Cadence.t;
  location : option Location.t;
  altitude : option Altitude.t;
  pace : option Pace.t;
  device : option (option string * string)
}.

Definition uninitialised : t := mk None None None None None None None None None.

Definition get_root (fs : FileSystem) (tcx_file : option string) : result (option Element) :=
  match tcx_file with
  | None => Ok None
  | Some tcx_file =>
      if endswith (lower tcx_file) ".tcx" || endswith (lower tcx_file) ".xml" then
        f <- open fs tcx_file ;;
        tree <- etree_parse f ;;
        r <- getitem (tree_xpath tree "/ns:TrainingCenterDatabase") 0 ;;
        let root : option Element := Some r in
        match root with
        | Some root =>
            a <- getitem (xpath root "./ns:Activities/ns:Activity") 0 ;; Ok (Some a)
        | None => Ok None
        end
      else Ok None
  end.

Definition get_device_info (root : Element) : result (option string * string) :=
  e <- getitem (xpath root "./ns:Creator/ns:Name") 0 ;;
  let device := text e in
  t <- getitem (xpath root "./ns:Creator/ns:Version") 0 ;;
  major <- getitem (xpath t "./ns:VersionMajor") 0 ;;
  v <- str_add "v" (text major) ;;
  let v := (v ++ ".")%string in
  minor <- getitem (xpath t "./ns:VersionMinor") 0 ;;
  version <- str_add v (text minor) ;;
  Ok (device, version).

Definition __init__ {B : Builtins} (fs : FileSystem) (tcx_file : option string) : result t :=
  root <- get_root fs tcx_file ;;
  match root with
  | Some root =>
      time <- Time.__init__ root ;;
      heartrate <- HeartRate.__init__ root ;;
      distance <- Distance.__init__ root ;;
      speed <- Speed.__init__ root ;;
      cadence <- Cadence.__init__ root ;;
      location <- Location.__init__ root ;;
      altitude <- Altitude.__init__ root ;;
      pace <- Pace.__init__ time distance ;;
      device <- get_device_info root ;;
      Ok (mk (Some time) (Some heartrate) (Some distance) (Some speed) (Some cadence)
             (Some location) (Some altitude) (Some pace) (Some device))
  | None => Ok uninitialised
  end.

End TCXParser.

(** ** The spec's own reading of elapsed seconds

    The specification speaks of the elapsed seconds of a sample: the whole
    elapsed time, in seconds.  This is the spec's quantity, to be compared
    with [timedelta_seconds], the one the code reads. *)
Definition elapsedSeconds (td : timedelta) : Q := (inject_Z td / 1000000)%Q.

(** The elapsed times on which the two agree: a whole number of seconds,
    from zero up to one day. *)
Definition whole_seconds_within_a_day (td : timedelta) : Prop :=
  (0 <= td < 86400 * 1000000)%Z /\ (td mod 1000000 = 0)%Z.

(** ** Names for the pieces of the loops

    The trackpoints in the order the two nested loops visit them, and the
    loop bodies, named so that lemmas can speak of them. *)
Definition Trackpoints (root : Element) : list Element :=
  flat_map (fun lap => xpath lap "./ns:Track/ns:Trackpoint") (xpath root "./ns:Lap").

Definition sample {B : Builtins} (var : string) (data : list Q) (trkpt : Element)
  : result (list Q) :=
  try_except_IndexError
    (e <- getitem (xpath trkpt ("./ns:" ++ var)) 0 ;;
     x <- float (text e) ;;
     Ok (data ++ [x]))
    (x <- getitem data (-1) ;;
     Ok (data ++ [x])).

Definition stamp {B : Builtins} (raw : list datetime) (trkpt : Element)
  : result (list datetime) :=
  try_except_IndexError
    (e <- getitem (xpath trkpt "./ns:Time") 0 ;;
     x <- datetime_strptime (str (text e)) "%Y-%m-%dT%H:%M:%S.%fZ" ;;
     Ok (raw ++ [x]))
    (data <- load_fast (Unbound : binding (list timedelta)) ;;
     x <- getitem data (-1) ;;
     Ok (raw ++ [x])).

Definition position {B : Builtins} (data : list (Q * Q)) (trkpt : Element)
  : result (list (Q * Q)) :=
  try_except_IndexError
    (e <- getitem (xpath trkpt "./ns:Position/ns:LatitudeDegrees") 0 ;;
     lat <- float (text e) ;;
     e <- getitem (xpath trkpt "./ns:Position/ns:LongitudeDegrees") 0 ;;
     lon <- float (text e) ;;
     Ok (data ++ [(lat, lon)]))
    (x <- getitem data (-1) ;;
     Ok (data ++ [x])).

(** The pace of one sample, as [Pace.get_data] writes it. *)
Definition pace_at (t0 t : timedelta) (d : Q) : Q :=
  ((inject_Z (timedelta_seconds (t - t0)%Z) / 60) / (d / 1000))%Q.

(** One turn of the loop of [Pace.get_data]: the only division that can
    fail is the last one. *)
Definition pace_step (t0 : timedelta) (pace : list Q) (td : timedelta * Q) : result (list Q) :=
  let '(t, d) := td in
  if Qeq_bool (d / 1000) 0 then Raise ZeroDivisionError
  else Ok (pace ++ [pace_at t0 t d]).

(** The differences of consecutive values, starting after [prev]: what the
    loop of [Altitude.change] appends after its first turn. *)
Fixpoint diffs (prev : Q) (s : list Q) : list Q :=
  match s with
  | [] => []
  | b :: s' => (b - prev)%Q :: diffs b s'
  end.

(** A channel's data is absent, or has one value for each of [n]
    trackpoints. *)
Definition absent_or_aligned {A : Type} (n : nat) (data : option (list A)) : Prop :=
  data = None \/ exists l, data = Some l /\ List.length l = n.

(** The trackpoints track by track: what [./ns:Track/ns:Trackpoint] walks
    through inside each lap. *)
Definition trackpoints_by_track (root : Element) : list Element :=
  flat_map (fun lap =>
              flat_map (fun track => xpath track "./ns:Trackpoint") (xpath lap "./ns:Track"))
           (xpath root "./ns:Lap").

(** ** A reading of the two library functions, for examples

    Plain decimal numerals for [float], zero-padded timestamps for
    [strptime].  Only the examples below use it. *)
Module Decimal.

Definition digit (c : ascii) : option Z :=
  let n := Z.of_nat (nat_of_ascii c) in
  if ((48 <=? n) && (n <=? 57))%Z then Some (n - 48)%Z else None.

Fixpoint digits (s : string) (acc : Z) : option Z :=
  match s with
  | EmptyString => Some acc
  | String c s' =>
      match digit c with
      | Some d => digits s' (10 * acc + d)%Z
      | None => None
      end
  end.

Definition number (s : string) : option Z :=
  match s with
  | EmptyString => None
  | _ => digits s 0%Z
  end.

Definition float_of_str (s : string) : option Q :=
  match index 0 "." s with
  | None => option_map inject_Z (number s)
  | Some i =>
      let k := (String.length s - i - 1)%nat in
      match number (substring 0 i s), number (substring (i + 1) k s) with
      | Some a, Some b =>
          let scale := (10 ^ Z.of_nat k)%Z in
          Some (Qmake (a * scale + b) (Z.to_pos scale))
      | _, _ => None
      end
  end.

(** Days from 1970-01-01 to the given civil date. *)
Definition days_from_civil (y m d : Z) : Z :=
  let y' := if (m <=? 2)%Z then (y - 1)%Z else y in
  let era := (y' / 400)%Z in
  let yoe := (y' - era * 400)%Z in
  let mp := if (m <=? 2)%Z then (m + 9)%Z else (m - 3)%Z in
  let doy := ((153 * mp + 2) / 5 + d - 1)%Z in
  let doe := (yoe * 365 + yoe / 4 - yoe / 100 + doy)%Z in
  (era * 146097 + doe - 719468)%Z.

Definition char_at (i : nat) (s : string) (c : ascii) : bool :=
  match get i s with
  | Some c' => Ascii.eqb c c'
  | None => false
  end.

Definition strptime (s fmt : string) : option datetime :=
  let n := String.length s in
  let k := (n - 21)%nat in
  if String.eqb fmt "%Y-%m-%dT%H:%M:%S.%fZ"
     && char_at 4 s "-" && char_at 7 s "-" && char_at 10 s "T"
     && char_at 13 s ":" && char_at 16 s ":" && char_at 19 s "."
     && char_at (n - 1) s "Z" && (1 <=? k)%nat && (k <=? 6)%nat
  then
    match number (substring 0 4 s), number (substring 5 2 s), number (substring 8 2 s),
          number (substring 11 2 s), number (substring 14 2 s), number (substring 17 2 s),
          number (substring 20 k s) with
    | Some y, Some mo, Some d, Some h, Some mi, Some se, Some f =>
        if ((1 <=? mo) && (mo <=? 12) && (1 <=? d) && (d <=? 31)
            && (h <? 24) && (mi <? 60) && (se <? 62))%Z
        then Some ((((days_from_civil y mo d * 24 + h) * 60 + mi) * 60 + se) * 1000000
                   + f * 10 ^ (6 - Z.of_nat k))%Z
        else None
    | _, _, _, _, _, _, _ => None
    end
  else None.

Definition builtins : Builtins := Build_Builtins float_of_str strptime.

End Decimal.

(** ** Example documents *)
Module Doc.

Definition leaf (name txt : string) : Element := Elem name (Some txt) [].

Definition time (txt : string) : Element := leaf "ns:Time" txt.
Definition distance (txt : string) : Element := leaf "ns:DistanceMeters" txt.
Definition heartrate (txt : string) : Element :=
  Elem "ns:HeartRateBpm" None [leaf "ns:Value" txt].
Definition trackpoint (fields : list Element) : Element := Elem "ns:Trackpoint" None fields.

Definition activity (trackpoints : list Element) : Element :=
  Elem "ns:Activity" None [Elem "ns:Lap" None [Elem "ns:Track" None trackpoints]].

Definition database (activity : Element) : Element :=
  Elem "ns:TrainingCenterDatabase" None [Elem "ns:Activities" None [activity]].

(** A file system holding one file. *)
Definition single (name : string) (f : File) : FileSystem :=
  fun path => if String.eqb path name then Some f else None.

(** Two samples, ten seconds and 30 m apart. *)
Definition two_samples : Element :=
  activity [trackpoint [time "2017-03-05T09:00:00.000Z"; distance "20"];
            trackpoint [time "2017-03-05T09:00:10.000Z"; distance "50"]].

(** No trackpoint carries a timestamp. *)
Definition no_time : Element :=
  activity [trackpoint [distance "20"]].

(** No trackpoint carries a distance. *)
Definition no_distance : Element :=
  activity [trackpoint [time "2017-03-05T09:00:00.000Z"]].

(** The second trackpoint lacks its timestamp. *)
Definition time_gap : Element :=
  activity [trackpoint [time "2017-03-05T09:00:00.000Z"; distance "20"];
            trackpoint [distance "50"]].

(** The first trackpoint lacks its timestamp. *)
Definition time_late : Element :=
  activity [trackpoint [distance "20"];
            trackpoint [time "2017-03-05T09:00:10.000Z"; distance "50"]].

(** The second trackpoint lacks its distance. *)
Definition distance_gap : Element :=
  activity [trackpoint [time "2017-03-05T09:00:00.000Z"; distance "20"];
            trackpoint [time "2017-03-05T09:00:10.000Z"]].

(** The first trackpoint lacks its distance. *)
Definition distance_late : Element :=
  activity [trackpoint [time "2017-03-05T09:00:00.000Z"];
            trackpoint [time "2017-03-05T09:00:10.000Z"; distance "50"]].

(** The activity starts at distance zero; the heart rate starts late. *)
Definition zero_start : Element :=
  activity [trackpoint [time "2017-03-05T09:00:00.000Z"; distance "0"];
            trackpoint [time "2017-03-05T09:00:10.000Z"; distance "50";
                        heartrate "100"]].

(** The activity starts at distance zero; nothing else is recorded. *)
Definition zero_start_plain : Element :=
  activity [trackpoint [time "2017-03-05T09:00:00.000Z"; distance "0"];
            trackpoint [time "2017-03-05T09:00:10.000Z"; distance "50"]].

(** The second sample is taken one day and one minute after the first. *)
Definition next_day : Element :=
  activity [trackpoint [time "2017-03-05T09:00:00.000Z"; distance "1000"];
            trackpoint [time "2017-03-06T09:01:00.000Z"; distance "2000"]].

(** A single sample. *)
Definition one_sample : Element :=
  activity [trackpoint [time "2017-03-05T09:00:00.000Z"; distance "1000"]].

(** A document whose root element is not the training database. *)
Definition gpx : Element := Elem "gpx" None [].

(** Three laps of two trackpoints, ten seconds and 50 m apart, with the
    creator's name and version. *)
Definition lap (trackpoints : list Element) : Element :=
  Elem "ns:Lap" None [Elem "ns:Track" None trackpoints].

Definition creator : Element :=
  Elem "ns:Creator" None
    [leaf "ns:Name" "Forerunner";
     Elem "ns:Version" None [leaf "ns:VersionMajor" "3"; leaf "ns:VersionMinor" "10"]].

Definition three_laps : Element :=
  Elem "ns:Activity" None
    [lap [trackpoint [time "2017-03-05T09:00:00.000Z"; distance "50"];
          trackpoint [time "2017-03-05T09:00:10.000Z"; distance "100"]];
     lap [trackpoint [time "2017-03-05T09:00:20.000Z"; distance "150"];
          trackpoint [time "2017-03-05T09:00:30.000Z"; distance "200"]];
     lap [trackpoint [time "2017-03-05T09:00:40.000Z"; distance "250"];
          trackpoint [time "2017-03-05T09:00:50.000Z"; distance "300"]];
     creator].

Definition position (lat lon : string) : Element :=
  Elem "ns:Position" None [leaf "ns:LatitudeDegrees" lat; leaf "ns:LongitudeDegrees" lon].

(** The second trackpoint has no position. *)
Definition position_gap : Element :=
  activity [trackpoint [position "1" "2"; distance "20"];
            trackpoint [distance "50"]].

(** The first trackpoint has no position. *)
Definition position_late : Element :=
  activity [trackpoint [distance "20"];
            trackpoint [position "1" "2"; distance "50"]].

(** Two laps with every kind of gap that the extraction fills: the second
    trackpoint has neither position nor heart rate. *)
Definition full_run : Element :=
  Elem "ns:Activity" None
    [lap [trackpoint [time "2017-03-05T09:00:00.000Z"; position "1" "2"; distance "50";
                      heartrate "120"];
          trackpoint [time "2017-03-05T09:00:10.000Z"; distance "100"]];
     lap [trackpoint [time "2017-03-05T09:00:20.000Z"; position "3" "4"; distance "150";
                      heartrate "130"]];
     creator].

Definition full_run_files : FileSystem := single "run.tcx" (Xml (database full_run)).

(** The objects the constructors build from these documents. *)
Definition two_samples_time : Time.t :=
  Time.mk (Some [0; 10000000]%Z)
          (AbsTime.__init__ [1488704400000000; 1488704410000000]%Z).

Definition two_samples_distance : Distance.t := Measure.mk (Some [20; 50]%Q).

Definition next_day_time : Time.t :=
  Time.mk (Some [0; 86460000000]%Z)
          (AbsTime.__init__ [1488704400000000; 1488790860000000]%Z).

Definition next_day_distance : Distance.t := Measure.mk (Some [1000; 2000]%Q).

Definition one_sample_time : Time.t :=
  Time.mk (Some [0]%Z) (AbsTime.__init__ [1488704400000000]%Z).

Definition one_sample_distance : Distance.t := Measure.mk (Some [1000]%Q).

Definition zero_start_distance : Distance.t := Measure.mk (Some [0; 50]%Q).

Definition absent (A : Type) : Measure.t A := Measure.mk None.

(** The object the parser builds from [full_run_files]. *)
Definition full_run_parsed : TCXParser.t :=
  TCXParser.mk
    (Some (Time.mk (Some [0; 10000000; 20000000]%Z)
                   (AbsTime.__init__
                      [1488704400000000; 1488704410000000; 1488704420000000]%Z)))
    (Some (Measure.mk (Some [120; 120; 130]%Q)))
    (Some (Measure.mk (Some [50; 100; 150]%Q)))
    (Some (Measure.mk None))
    (Some (Measure.mk None))
    (Some (Measure.mk (Some [(1, 2); (1, 2); (3, 4)]%Q)))
    (Some (Measure.mk None))
    (Some (Measure.mk (Some [0 # 3000; 10000 # 6000; 20000 # 9000]%Q)))
    (Some (Some "Forerunner"%string, "v3.10"%string)).

End Doc.

(** * Properties *)

(** ** The runtime *)

Lemma bind_Ok {A B : Type} (r : result A) (k : A -> result B) (b : B) :
  bind r k = Ok b -> exists a, r = Ok a /\ k a = Ok b.
Proof.
  destruct r as [a | e]; simpl; intros H.
  - exists a; split; [reflexivity | exact H].
  - discriminate H.
Qed.

Lemma getitem_nil {A : Type} (i : Z) : getitem (@nil A) i = Raise IndexError.
Proof.
  unfold getitem; simpl.
  destruct (i <? 0)%Z eqn:Hi.
  - rewrite Z.add_0_r.
    destruct (0 <=? i)%Z eqn:H0; [| reflexivity].
    apply Z.ltb_lt in Hi; apply Z.leb_le in H0; lia.
  - destruct (0 <=? i)%Z; simpl; [| reflexivity].
    destruct (i <? 0)%Z; [discriminate | reflexivity].
Qed.

Lemma getitem_first {A : Type} (x : A) (l : list A) : getitem (x :: l) 0 = Ok x.
Proof.
  unfold getitem.
  change (0 <? 0)%Z with false; cbv iota.
  change (0 <=? 0)%Z with true.
  replace (0 <? Z.of_nat (List.length (x :: l)))%Z with true.
  - reflexivity.
  - symmetry; apply Z.ltb_lt; simpl; lia.
Qed.

Lemma last_cons_default {A : Type} (l : list A) (z x y : A) :
  last (z :: l) x = last (z :: l) y.
Proof.
  revert z; induction l as [| w l IH]; intros z; [reflexivity |].
  change (last (w :: l) x = last (w :: l) y); apply IH.
Qed.

Lemma nth_error_last {A : Type} (l : list A) (x : A) :
  nth_error (x :: l) (List.length l) = Some (last l x).
Proof.
  revert x; induction l as [| y l IH]; intros x.
  - reflexivity.
  - change (nth_error (y :: l) (List.length l) = Some (last (y :: l) x)).
    rewrite IH. destruct l as [| z l]; [reflexivity |].
    f_equal. change (last (z :: l) y = last (z :: l) x). apply last_cons_default.
Qed.

Lemma getitem_minus_one {A : Type} (x : A) (l : list A) :
  getitem (x :: l) (-1) = Ok (last l x).
Proof.
  unfold getitem.
  change (-1 <? 0)%Z with true; cbv iota.
  replace ((0 <=? -1 + Z.of_nat (List.length (x :: l)))
           && (-1 + Z.of_nat (List.length (x :: l)) <? Z.of_nat (List.length (x :: l))))%Z
    with true.
  - replace (Z.to_nat (-1 + Z.of_nat (List.length (x :: l)))) with (List.length l)
      by (simpl List.length; lia).
    rewrite nth_error_last; reflexivity.
  - symmetry; apply andb_true_iff; split;
      [apply Z.leb_le | apply Z.ltb_lt]; simpl List.length; lia.
Qed.

Lemma last_map {A B : Type} (f : A -> B) (l : list A) (x : A) :
  last (map f l) (f x) = f (last l x).
Proof.
  induction l as [| y l IH]; [reflexivity |].
  simpl. destruct l as [| z l]; [reflexivity | exact IH].
Qed.

Lemma for__app {A S : Type} (body : S -> A -> result S) (l1 l2 : list A) (s : S) :
  for_ (l1 ++ l2) s body = (s' <- for_ l1 s body ;; for_ l2 s' body).
Proof.
  revert s; induction l1 as [| x l1 IH]; intros s; simpl.
  - reflexivity.
  - destruct (body s x) as [s' | e]; simpl; [apply IH | reflexivity].
Qed.

(** Two nested loops over one accumulator are one loop over the
    concatenation. *)
Lemma for__flat_map {A B S : Type} (g : A -> list B) (body : S -> B -> result S)
      (l : list A) (s : S) :
  for_ l s (fun s x => for_ (g x) s body) = for_ (flat_map g l) s body.
Proof.
  revert s; induction l as [| x l IH]; intros s; simpl.
  - reflexivity.
  - rewrite for__app.
    destruct (for_ (g x) s body) as [s' | e]; simpl; [apply IH | reflexivity].
Qed.

Lemma comprehension_pure {A B : Type} (f : A -> result B) (g : A -> B) (l : list A) :
  (forall x, f x = Ok (g x)) -> comprehension f l = Ok (map g l).
Proof.
  intros Hf; induction l as [| x l IH]; simpl.
  - reflexivity.
  - rewrite Hf, IH; reflexivity.
Qed.

(** ** Selectors *)

Lemma flat_map_flat_map {A B C : Type} (f : A -> list B) (g : B -> list C) (l : list A) :
  flat_map g (flat_map f l) = flat_map (fun x => flat_map g (f x)) l.
Proof.
  induction l as [| x l IH]; simpl.
  - reflexivity.
  - rewrite flat_map_app, IH; reflexivity.
Qed.

Lemma select_app (st1 st2 : list string) (e : Element) :
  select (st1 ++ st2) e = flat_map (select st2) (select st1 e).
Proof.
  revert e; induction st1 as [| s st1 IH]; intros e; simpl.
  - rewrite app_nil_r; reflexivity.
  - destruct (String.eqb s "."); [apply IH |].
    rewrite flat_map_flat_map.
    apply flat_map_ext; intros c; apply IH.
Qed.

Lemma Trackpoints_select (root : Element) :
  Trackpoints root = select ["ns:Lap"; "ns:Track"; "ns:Trackpoint"]%string root.
Proof.
  unfold Trackpoints, xpath.
  change (select ["ns:Lap"; "ns:Track"; "ns:Trackpoint"]%string root)
    with (select (["ns:Lap"]%string ++ ["ns:Track"; "ns:Trackpoint"]%string) root).
  rewrite select_app; reflexivity.
Qed.

(** The presence test looks at the same nodes as the loops do. *)
Lemma findall_Trackpoints (root : Element) (var : string) :
  findall root ("./ns:Lap/ns:Track/ns:Trackpoint/ns:" ++ var)
  = flat_map (fun trkpt => xpath trkpt ("./ns:" ++ var)) (Trackpoints root).
Proof.
  rewrite Trackpoints_select.
  unfold findall, xpath.
  change (steps ("./ns:Lap/ns:Track/ns:Trackpoint/ns:" ++ var))
    with ((["."; "ns:Lap"; "ns:Track"; "ns:Trackpoint"]%string)
            ++ split_slash "ns:" var).
  rewrite select_app.
  apply flat_map_ext; intros trkpt; reflexivity.
Qed.

Lemma findall_nonempty (root : Element) (var : string) :
  (0 <? List.length (findall root ("./ns:Lap/ns:Track/ns:Trackpoint/ns:" ++ var)))%nat = true ->
  Trackpoints root <> [].
Proof.
  rewrite findall_Trackpoints; intros H E; rewrite E in H; discriminate H.
Qed.

(** ** Loops that append one value per trackpoint

    The extraction loops share a shape: a turn that succeeds appends one
    value, and on a trackpoint that misses the field the value appended is
    the last one already there. *)

Section Appending.

Context {A : Type}.
Variable step : list A -> Element -> result (list A).
Variable missing : Element -> Prop.

Hypothesis step_Ok : forall (data data' : list A) (trkpt : Element),
  step data trkpt = Ok data' ->
  exists x, data' = data ++ [x]
    /\ (missing trkpt -> exists d l, data = d :: l /\ x = last l d).

Lemma loop_length (tps : list Element) (acc data : list A) :
  for_ tps acc step = Ok data ->
  List.length data = (List.length acc + List.length tps)%nat.
Proof.
  revert acc; induction tps as [| tp tps IH]; intros acc H; simpl in H.
  - injection H as <-; simpl; lia.
  - apply bind_Ok in H; destruct H as [acc1 [H1 H2]].
    apply step_Ok in H1; destruct H1 as [x [-> _]].
    rewrite (IH _ H2), length_app; simpl; lia.
Qed.

Lemma loop_prefix (tps : list Element) (acc data : list A) :
  for_ tps acc step = Ok data -> exists rest, data = acc ++ rest.
Proof.
  revert acc; induction tps as [| tp tps IH]; intros acc H; simpl in H.
  - injection H as <-; exists []; rewrite app_nil_r; reflexivity.
  - apply bind_Ok in H; destruct H as [acc1 [H1 H2]].
    apply step_Ok in H1; destruct H1 as [x [-> _]].
    destruct (IH _ H2) as [rest ->].
    exists (x :: rest); rewrite <- app_assoc; reflexivity.
Qed.

Lemma loop_carry (tps : list Element) (acc data : list A) :
  for_ tps acc step = Ok data ->
  forall (k : nat) (trkpt : Element),
    nth_error tps k = Some trkpt ->
    missing trkpt ->
    exists v, (0 < List.length acc + k)%nat
      /\ nth_error data (List.length acc + k - 1) = Some v
      /\ nth_error data (List.length acc + k) = Some v.
Proof.
  revert acc; induction tps as [| tp tps IH]; intros acc H k trkpt Hk Hmiss.
  - destruct k; discriminate Hk.
  - simpl in H. apply bind_Ok in H; destruct H as [acc1 [H1 H2]].
    apply step_Ok in H1; destruct H1 as [x [-> Hx]].
    destruct k as [| k].
    + injection Hk as ->.
      destruct (Hx Hmiss) as [d [l [-> ->]]].
      destruct (loop_prefix _ _ H2) as [rest ->].
      exists (last l d). rewrite Nat.add_0_r. split; [simpl; lia |].
      rewrite <- app_assoc. split.
      * rewrite nth_error_app1 by (simpl; lia).
        replace (List.length (d :: l) - 1)%nat with (List.length l) by (simpl; lia).
        apply nth_error_last.
      * rewrite nth_error_app2 by lia.
        rewrite Nat.sub_diag; reflexivity.
    + simpl in Hk.
      destruct (IH _ H2 k trkpt Hk Hmiss) as [v [_ [Ha Hb]]].
      rewrite length_app in Ha, Hb; simpl in Ha, Hb.
      exists v. split; [lia |]. split.
      * replace (List.length acc + S k - 1)%nat with (List.length acc + 1 + k - 1)%nat by lia.
        exact Ha.
      * replace (List.length acc + S k)%nat with (List.length acc + 1 + k)%nat by lia.
        exact Hb.
Qed.

End Appending.

(** ** The extraction loops *)

Section Extraction.

Context {B : Builtins}.

Lemma float_cases (t : option string) :
  (exists x, float t = Ok x) \/ float t = Raise TypeError \/ float t = Raise ValueError.
Proof.
  unfold float; destruct t as [s |]; [| auto].
  destruct (float_of_str s) as [x |]; [left; exists x; reflexivity | auto].
Qed.

Lemma Measure_get_data_loop (root : Element) (var : string) :
  Measure.get_data root var
  = if (0 <? List.length (findall root ("./ns:Lap/ns:Track/ns:Trackpoint/ns:" ++ var)))%nat
    then data <- for_ (Trackpoints root) [] (sample var) ;; Ok (Some data)
    else Ok None.
Proof.
  unfold Measure.get_data, Trackpoints.
  rewrite <- for__flat_map; reflexivity.
Qed.

Lemma sample_missing (var : string) (data : list Q) (trkpt : Element) :
  xpath trkpt ("./ns:" ++ var) = [] ->
  sample var data trkpt = (x <- getitem data (-1) ;; Ok (data ++ [x])).
Proof.
  intros H; unfold sample; rewrite H, getitem_nil; reflexivity.
Qed.

Lemma sample_present (var : string) (data : list Q) (trkpt e : Element) (es : list Element) :
  xpath trkpt ("./ns:" ++ var) = e :: es ->
  sample var data trkpt = (x <- float (text e) ;; Ok (data ++ [x])).
Proof.
  intros H; unfold sample; rewrite H, getitem_first; simpl.
  destruct (float_cases (text e)) as [[x Hx] | [Hx | Hx]]; rewrite Hx; reflexivity.
Qed.

(** A step that succeeds appends one value; on a trackpoint without the
    field it is the value appended last. *)
Lemma sample_Ok (var : string) (data data' : list Q) (trkpt : Element) :
  sample var data trkpt = Ok data' ->
  exists x, data' = data ++ [x]
    /\ (xpath trkpt ("./ns:" ++ var) = [] -> exists d l, data = d :: l /\ x = last l d).
Proof.
  intros H.
  destruct (xpath trkpt ("./ns:" ++ var)) as [| e es] eqn:E.
  - rewrite (sample_missing _ _ _ E) in H.
    destruct data as [| d l].
    + rewrite getitem_nil in H; discriminate H.
    + rewrite getitem_minus_one in H; simpl in H.
      injection H as <-. exists (last l d); split; [reflexivity |].
      intros _; exists d, l; split; reflexivity.
  - rewrite (sample_present _ _ _ E) in H.
    apply bind_Ok in H; destruct H as [x [_ H]].
    injection H as <-. exists x; split; [reflexivity | intros H; discriminate H].
Qed.

Lemma sample_loop_length (var : string) (tps : list Element) (acc data : list Q) :
  for_ tps acc (sample var) = Ok data ->
  List.length data = (List.length acc + List.length tps)%nat.
Proof.
  apply (@loop_length _ (sample var) (fun trkpt => xpath trkpt ("./ns:" ++ var) = [])
           (sample_Ok var)).
Qed.

(** The loop invariant behind carry-forward: the value written for a
    trackpoint without the field is the value written just before it. *)
Lemma sample_loop_carry (var : string) (tps : list Element) (acc data : list Q) :
  for_ tps acc (sample var) = Ok data ->
  forall (k : nat) (trkpt : Element),
    nth_error tps k = Some trkpt ->
    xpath trkpt ("./ns:" ++ var) = [] ->
    exists v, (0 < List.length acc + k)%nat
      /\ nth_error data (List.length acc + k - 1) = Some v
      /\ nth_error data (List.length acc + k) = Some v.
Proof.
  apply (@loop_carry _ (sample var) (fun trkpt => xpath trkpt ("./ns:" ++ var) = [])
           (sample_Ok var)).
Qed.

Lemma Measure_get_data_Some (root : Element) (var : string) (data : list Q) :
  Measure.get_data root var = Ok (Some data) ->
  for_ (Trackpoints root) [] (sample var) = Ok data
  /\ List.length data = List.length (Trackpoints root)
  /\ data <> [].
Proof.
  rewrite Measure_get_data_loop.
  destruct (0 <? _)%nat eqn:G; [| discriminate].
  intros H. apply bind_Ok in H; destruct H as [data' [H E]].
  injection E as ->.
  pose proof (sample_loop_length _ _ _ H) as L; simpl in L.
  split; [exact H |]. split; [exact L |].
  apply findall_nonempty in G.
  intros ->. destruct (Trackpoints root); [congruence | discriminate L].
Qed.

Lemma Measure_get_data_None (root : Element) (var : string) :
  findall root ("./ns:Lap/ns:Track/ns:Trackpoint/ns:" ++ var) = [] ->
  Measure.get_data root var = Ok None.
Proof.
  intros H; unfold Measure.get_data; rewrite H; reflexivity.
Qed.

(** *** Location *)

Lemma Location_get_data_loop (root : Element) :
  Location.get_data root
  = if (0 <? List.length (findall root "./ns:Lap/ns:Track/ns:Trackpoint/ns:Position"))%nat
    then data <- for_ (Trackpoints root) [] position ;; Ok (Some data)
    else Ok None.
Proof.
  unfold Location.get_data, Trackpoints.
  rewrite <- for__flat_map; reflexivity.
Qed.

(** Without a position node there is no latitude to find. *)
Lemma no_position (trkpt : Element) :
  xpath trkpt "./ns:Position" = [] ->
  xpath trkpt "./ns:Position/ns:LatitudeDegrees" = [].
Proof.
  unfold xpath.
  change (steps "./ns:Position/ns:LatitudeDegrees")
    with (steps "./ns:Position" ++ ["ns:LatitudeDegrees"]%string).
  rewrite select_app. intros ->. reflexivity.
Qed.

Lemma position_handler (data : list (Q * Q)) (trkpt : Element) :
  xpath trkpt "./ns:Position/ns:LatitudeDegrees" = [] ->
  position data trkpt = (x <- getitem data (-1) ;; Ok (data ++ [x])).
Proof.
  intros H; unfold position; rewrite H, getitem_nil; reflexivity.
Qed.

Lemma position_Ok (data data' : list (Q * Q)) (trkpt : Element) :
  position data trkpt = Ok data' ->
  exists x, data' = data ++ [x]
    /\ (xpath trkpt "./ns:Position" = [] -> exists d l, data = d :: l /\ x = last l d).
Proof.
  intros H.
  assert (Hcarry : (x <- getitem data (-1) ;; Ok (data ++ [x])) = Ok data' ->
                   exists x, data' = data ++ [x] /\ exists d l, data = d :: l /\ x = last l d).
  { intros Hh. destruct data as [| d l].
    - rewrite getitem_nil in Hh; discriminate Hh.
    - rewrite getitem_minus_one in Hh; simpl in Hh. injection Hh as <-.
      exists (last l d); split; [reflexivity |]. exists d, l; split; reflexivity. }
  destruct (xpath trkpt "./ns:Position/ns:LatitudeDegrees") as [| e es] eqn:E.
  - rewrite (position_handler _ _ E) in H.
    destruct (Hcarry H) as [x [-> Hx]]. exists x; split; [reflexivity | intros _; exact Hx].
  - assert (Hpos : xpath trkpt "./ns:Position" <> [])
      by (intros Hn; rewrite (no_position _ Hn) in E; discriminate E).
    unfold position in H. rewrite E, getitem_first in H. cbn [bind] in H.
    destruct (float_cases (text e)) as [[lat Hlat] | [Hlat | Hlat]]; rewrite Hlat in H;
      try discriminate H.
    cbn [bind] in H.
    destruct (xpath trkpt "./ns:Position/ns:LongitudeDegrees") as [| e' es'].
    + rewrite getitem_nil in H. cbn [bind try_except_IndexError] in H.
      destruct (Hcarry H) as [x [-> Hx]].
      exists x; split; [reflexivity | intros _; exact Hx].
    + rewrite getitem_first in H. cbn [bind] in H.
      destruct (float_cases (text e')) as [[lon Hlon] | [Hlon | Hlon]]; rewrite Hlon in H;
        try discriminate H.
      cbn [bind try_except_IndexError] in H. injection H as <-.
      exists (lat, lon); split; [reflexivity | intros Hn; contradiction].
Qed.

Lemma Location_get_data_Some (root : Element) (data : list (Q * Q)) :
  Location.get_data root = Ok (Some data) ->
  for_ (Trackpoints root) [] position = Ok data.
Proof.
  rewrite Location_get_data_loop.
  destruct (0 <? _)%nat; [| discriminate].
  intros H. apply bind_Ok in H; destruct H as [data' [H E]].
  injection E as ->. exact H.
Qed.

(** *** Time *)

Lemma Time_get_data_loop (root : Element) :
  Time.get_data root
  = if (0 <? List.length (findall root "./ns:Lap/ns:Track/ns:Trackpoint/ns:Time"))%nat
    then raw <- for_ (Trackpoints root) [] stamp ;;
         data <- comprehension (fun x => r0 <- getitem raw 0 ;; Ok (x - r0)%Z) raw ;;
         Ok (Some (data, raw))
    else Ok None.
Proof.
  unfold Time.get_data, Trackpoints.
  rewrite <- for__flat_map; reflexivity.
Qed.

(** A trackpoint without a timestamp stops the extraction: the handler
    reads a local that is not yet bound. *)
Lemma stamp_missing (raw : list datetime) (trkpt : Element) :
  xpath trkpt "./ns:Time" = [] -> stamp raw trkpt = Raise UnboundLocalError.
Proof.
  intros H; unfold stamp; rewrite H, getitem_nil; reflexivity.
Qed.

Lemma stamp_Ok (raw raw' : list datetime) (trkpt : Element) :
  stamp raw trkpt = Ok raw' ->
  exists x, raw' = raw ++ [x] /\ xpath trkpt "./ns:Time" <> [].
Proof.
  intros H.
  destruct (xpath trkpt "./ns:Time") as [| e es] eqn:E.
  - rewrite (stamp_missing _ _ E) in H; discriminate H.
  - unfold stamp in H; rewrite E, getitem_first in H; simpl in H.
    unfold datetime_strptime in H.
    destruct (strptime _ _) as [x |]; simpl in H; [| discriminate H].
    injection H as <-. exists x; split; [reflexivity | discriminate].
Qed.

Lemma stamp_loop (tps : list Element) (acc raw : list datetime) :
  for_ tps acc stamp = Ok raw ->
  List.length raw = (List.length acc + List.length tps)%nat
  /\ Forall (fun trkpt => xpath trkpt "./ns:Time" <> []) tps.
Proof.
  revert acc; induction tps as [| tp tps IH]; intros acc H; simpl in H.
  - injection H as <-; split; [simpl; lia | constructor].
  - apply bind_Ok in H; destruct H as [acc1 [H1 H2]].
    apply stamp_Ok in H1; destruct H1 as [x [-> Hx]].
    destruct (IH _ H2) as [L F].
    split; [rewrite L, length_app; simpl; lia | constructor; assumption].
Qed.

(** What a constructed [Time] looks like: the raw timestamps, one per
    trackpoint, and each of them minus the first. *)
Lemma Time_init_Ok (root : Element) (tm : Time.t) :
  Time.__init__ root = Ok tm ->
  exists r0 rest,
    tm = Time.mk (Some (map (fun x => (x - r0)%Z) (r0 :: rest)))
                 (AbsTime.__init__ (r0 :: rest))
    /\ List.length (r0 :: rest) = List.length (Trackpoints root)
    /\ Forall (fun trkpt => xpath trkpt "./ns:Time" <> []) (Trackpoints root).
Proof.
  unfold Time.__init__; rewrite Time_get_data_loop.
  destruct (0 <? _)%nat eqn:G; [| discriminate].
  intros H. apply bind_Ok in H; destruct H as [r [H E]].
  apply bind_Ok in H; destruct H as [raw [Hraw H]].
  apply stamp_loop in Hraw; destruct Hraw as [L F]; simpl in L.
  apply (findall_nonempty root "Time") in G.
  destruct raw as [| r0 rest].
  - destruct (Trackpoints root); [congruence | discriminate L].
  - rewrite (comprehension_pure _ (fun x => (x - r0)%Z)) in H
      by (intros x; rewrite getitem_first; reflexivity).
    simpl in H. injection H as <-. injection E as <-.
    exists r0, rest; split; [reflexivity |]. split; assumption.
Qed.

End Extraction.

(** ** Pace *)

Lemma for__ext {A S : Type} (body1 body2 : S -> A -> result S) (l : list A) (s : S) :
  (forall s x, body1 s x = body2 s x) -> for_ l s body1 = for_ l s body2.
Proof.
  intros H; revert s; induction l as [| x l IH]; intros s; simpl.
  - reflexivity.
  - rewrite H. destruct (body2 s x); simpl; [apply IH | reflexivity].
Qed.

Lemma Pace_get_data_present (tm : Time.t) (ds : Distance.t)
      (t0 : timedelta) (ts : list timedelta) (d0 : Q) (dl : list Q) :
  Time.data tm = Some (t0 :: ts) ->
  Measure.data ds = Some (d0 :: dl) ->
  Pace.get_data tm ds
  = (pace <- for_ (combine (t0 :: ts) (d0 :: dl)) [] (pace_step t0) ;; Ok (Some pace)).
Proof.
  intros Ht Hd. unfold Pace.get_data. rewrite Ht, Hd.
  cbn [Measure.__bool__ Measure.__len__ Measure.__iter__ bind List.length Nat.eqb negb].
  f_equal. apply for__ext. intros pace [t d].
  unfold Measure.__getitem__. rewrite getitem_first.
  unfold pace_step, pace_at, truediv.
  change (Qeq_bool 60 0) with false. change (Qeq_bool 1000 0) with false.
  cbn [bind]. destruct (Qeq_bool (d / 1000) 0); reflexivity.
Qed.

Lemma Pace_get_data_no_time (tm : Time.t) (ds : Distance.t) :
  Time.data tm = None -> Pace.get_data tm ds = Raise TypeError.
Proof.
  intros H; unfold Pace.get_data; rewrite H; reflexivity.
Qed.

Lemma Pace_get_data_no_distance (tm : Time.t) (ds : Distance.t)
      (t0 : timedelta) (ts : list timedelta) :
  Time.data tm = Some (t0 :: ts) ->
  Measure.data ds = None ->
  Pace.get_data tm ds = Raise TypeError.
Proof.
  intros Ht Hd; unfold Pace.get_data; rewrite Ht, Hd; reflexivity.
Qed.

Lemma pace_loop_raises (t0 : timedelta) (l : list (timedelta * Q)) (acc : list Q) :
  (exists t d, In (t, d) l /\ Qeq_bool (d / 1000) 0 = true) ->
  for_ l acc (pace_step t0) = Raise ZeroDivisionError.
Proof.
  revert acc; induction l as [| [t1 d1] l IH]; intros acc [t [d [Hin Hz]]].
  - destruct Hin.
  - simpl. destruct (Qeq_bool (d1 / 1000) 0) eqn:E; [reflexivity |].
    simpl. apply IH. destruct Hin as [Heq | Hin].
    + injection Heq as -> ->. congruence.
    + exists t, d; split; assumption.
Qed.

Lemma pace_loop_Ok (t0 : timedelta) (l : list (timedelta * Q)) (acc pl : list Q) :
  for_ l acc (pace_step t0) = Ok pl ->
  pl = acc ++ map (fun td => pace_at t0 (fst td) (snd td)) l.
Proof.
  revert acc; induction l as [| [t1 d1] l IH]; intros acc H; simpl in H.
  - injection H as <-; rewrite app_nil_r; reflexivity.
  - destruct (Qeq_bool (d1 / 1000) 0); [discriminate H |].
    simpl in H. rewrite (IH _ H), <- app_assoc; reflexivity.
Qed.

Lemma in_combine_r_ex {A C : Type} (l1 : list A) (l2 : list C) (d : C) :
  List.length l1 = List.length l2 -> In d l2 -> exists t, In (t, d) (combine l1 l2).
Proof.
  revert l2; induction l1 as [| a l1 IH]; intros [| c l2] L Hin;
    try discriminate L; [destruct Hin |].
  destruct Hin as [-> | Hin].
  - exists a; left; reflexivity.
  - injection L as L. destruct (IH _ L Hin) as [t Ht]. exists t; right; exact Ht.
Qed.

Lemma zero_divisor (d : Q) : (d == 0)%Q -> Qeq_bool (d / 1000) 0 = true.
Proof.
  intros H. apply Qeq_bool_iff. rewrite H. reflexivity.
Qed.

(** ** [min] and [max] of the runtime *)

Lemma Qltb_lt (x y : Q) : Qltb x y = true <-> (x < y)%Q.
Proof.
  unfold Qltb. rewrite negb_true_iff. split; intros H.
  - apply Qnot_le_lt. intros Hle. apply Qle_bool_iff in Hle. congruence.
  - destruct (Qle_bool y x) eqn:E; [| reflexivity].
    apply Qle_bool_iff in E. exfalso. exact (Qlt_not_le _ _ H E).
Qed.

Lemma Qltb_ge (x y : Q) : Qltb x y = false -> (y <= x)%Q.
Proof.
  unfold Qltb. rewrite negb_false_iff. apply Qle_bool_iff.
Qed.

Lemma fold_max (l : list Q) (x : Q) :
  let m := fold_left (fun m y => if Qltb m y then y else m) l x in
  In m (x :: l) /\ forall y, In y (x :: l) -> (y <= m)%Q.
Proof.
  revert x; induction l as [| z l IH]; intros x; cbn zeta.
  - split; [left; reflexivity |].
    intros y [<- | []]; apply Qle_refl.
  - simpl fold_left.
    destruct (IH (if Qltb x z then z else x)) as [Hin Hmax].
    assert (Hx : (x <= if Qltb x z then z else x)%Q).
    { destruct (Qltb x z) eqn:E; [apply Qlt_le_weak, Qltb_lt, E | apply Qle_refl]. }
    assert (Hz : (z <= if Qltb x z then z else x)%Q).
    { destruct (Qltb x z) eqn:E; [apply Qle_refl | apply Qltb_ge, E]. }
    split.
    + destruct Hin as [Hin | Hin]; [| right; right; exact Hin].
      rewrite <- Hin. destruct (Qltb x z); [right; left | left]; reflexivity.
    + intros y [<- | [<- | Hy]].
      * eapply Qle_trans; [exact Hx | apply Hmax; left; reflexivity].
      * eapply Qle_trans; [exact Hz | apply Hmax; left; reflexivity].
      * apply Hmax; right; exact Hy.
Qed.

Lemma fold_min (l : list Q) (x : Q) :
  let m := fold_left (fun m y => if Qltb y m then y else m) l x in
  In m (x :: l) /\ forall y, In y (x :: l) -> (m <= y)%Q.
Proof.
  revert x; induction l as [| z l IH]; intros x; cbn zeta.
  - split; [left; reflexivity |].
    intros y [<- | []]; apply Qle_refl.
  - simpl fold_left.
    destruct (IH (if Qltb z x then z else x)) as [Hin Hmin].
    assert (Hx : ((if Qltb z x then z else x) <= x)%Q).
    { destruct (Qltb z x) eqn:E; [apply Qlt_le_weak, Qltb_lt, E | apply Qle_refl]. }
    assert (Hz : ((if Qltb z x then z else x) <= z)%Q).
    { destruct (Qltb z x) eqn:E; [apply Qle_refl | apply Qltb_ge, E]. }
    split.
    + destruct Hin as [Hin | Hin]; [| right; right; exact Hin].
      rewrite <- Hin. destruct (Qltb z x); [right; left | left]; reflexivity.
    + intros y [<- | [<- | Hy]].
      * eapply Qle_trans; [apply Hmin; left; reflexivity | exact Hx].
      * eapply Qle_trans; [apply Hmin; left; reflexivity | exact Hz].
      * apply Hmin; right; exact Hy.
Qed.

Lemma py_max_spec (l : list Q) :
  l <> [] -> exists m, py_max l = Ok m /\ In m l /\ forall y, In y l -> (y <= m)%Q.
Proof.
  destruct l as [| x l]; [congruence | intros _].
  eexists; split; [reflexivity | apply fold_max].
Qed.

Lemma py_min_spec (l : list Q) :
  l <> [] -> exists m, py_min l = Ok m /\ In m l /\ forall y, In y l -> (m <= y)%Q.
Proof.
  destruct l as [| x l]; [congruence | intros _].
  eexists; split; [reflexivity | apply fold_min].
Qed.

(** ** Time: duration against the absolute series *)

(** C10.  For every present Time channel, [duration] is the last absolute
    timestamp minus the first one: [Time.duration] equals
    [Time.absolute.finish - Time.absolute.start]. *)
Theorem Time_duration_finish_minus_start {B : Builtins} (root : Element) (tm : Time.t) :
  Time.__init__ root = Ok tm ->
  exists d s f,
    Time.duration tm = Ok (Some d)
    /\ AbsTime.start (Time.absolute tm) = Ok (Some s)
    /\ AbsTime.finish (Time.absolute tm) = Ok (Some f)
    /\ d = (f - s)%Z.
Proof.
  intros H. destruct (Time_init_Ok _ H) as [r0 [rest [-> _]]].
  exists (last rest r0 - r0)%Z, r0, (last rest r0).
  unfold Time.duration, AbsTime.start, AbsTime.finish, AbsTime.__init__.
  cbn [Time.data Time.absolute Measure.data map].
  rewrite getitem_first, !getitem_minus_one.
  rewrite (last_map (fun x => (x - r0)%Z)).
  repeat split; reflexivity.
Qed.

Lemma Time_duration_finish_minus_start_witness :
  Time.__init__ (B := Decimal.builtins) Doc.two_samples = Ok Doc.two_samples_time
  /\ exists d s f,
       Time.duration Doc.two_samples_time = Ok (Some d)
       /\ AbsTime.start (Time.absolute Doc.two_samples_time) = Ok (Some s)
       /\ AbsTime.finish (Time.absolute Doc.two_samples_time) = Ok (Some f)
       /\ d = (f - s)%Z.
Proof.
  split; [vm_compute; reflexivity |].
  apply (Time_duration_finish_minus_start (B := Decimal.builtins) Doc.two_samples).
  vm_compute; reflexivity.
Defined.

(** ** Distance.raw *)

Lemma Distance_raw_single (x : Q) :
  Distance.raw (Measure.mk (Some [x])) = Ok (Some [x]).
Proof. reflexivity. Qed.

(** With a second sample the loop reaches [sum(li)], and [li] is bound
    nowhere. *)
Lemma Distance_raw_NameError (x y : Q) (l : list Q) :
  Distance.raw (Measure.mk (Some (x :: y :: l))) = Raise NameError.
Proof. reflexivity. Qed.

(** C1.  For a present Distance channel, [raw] is to be as long as the data,
    with [raw[0] = data[0]] and [raw[i] = data[i] - data[i-1]] for i > 0.  On
    the two cumulative readings 20 and 50 that is [20; 30]; [raw] raises
    [NameError] instead. *)
Theorem Distance_raw_two_samples :
  Distance.__init__ (B := Decimal.builtins) Doc.two_samples = Ok Doc.two_samples_distance
  /\ Distance.raw Doc.two_samples_distance = Raise NameError.
Proof.
  split; [vm_compute; reflexivity | apply Distance_raw_NameError].
Qed.

(** ** Absent channels *)

Lemma Time_get_data_None {B : Builtins} (root : Element) :
  findall root "./ns:Lap/ns:Track/ns:Trackpoint/ns:Time" = [] ->
  Time.get_data root = Ok None.
Proof.
  intros H; unfold Time.get_data; rewrite H; reflexivity.
Qed.

(** Without any timestamp in the document the constructor unpacks
    [None]. *)
Lemma Time_init_absent {B : Builtins} (root : Element) :
  findall root "./ns:Lap/ns:Track/ns:Trackpoint/ns:Time" = [] ->
  Time.__init__ root = Raise TypeError.
Proof.
  intros H; unfold Time.__init__; rewrite (Time_get_data_None _ H); reflexivity.
Qed.

(** C2.  A channel whose field no trackpoint carries is to be absent, with
    every statistic returning no result.  For Time, on a document without
    timestamps, the constructor raises [TypeError]: there is no channel to
    ask. *)
Theorem Time_init_no_time {B : Builtins} :
  findall Doc.no_time "./ns:Lap/ns:Track/ns:Trackpoint/ns:Time" = []
  /\ Time.__init__ Doc.no_time = Raise TypeError.
Proof.
  split; [reflexivity | apply Time_init_absent; reflexivity].
Qed.

(** C3.  Pace built from a present Time and an absent Distance is to be
    absent; the truth test of the absent channel raises [TypeError]. *)
Theorem Pace_init_no_distance :
  Time.__init__ (B := Decimal.builtins) Doc.no_distance = Ok Doc.one_sample_time
  /\ Distance.__init__ (B := Decimal.builtins) Doc.no_distance = Ok (Doc.absent Q)
  /\ Pace.__init__ Doc.one_sample_time (Doc.absent Q) = Raise TypeError.
Proof.
  repeat split; vm_compute; reflexivity.
Qed.

(** ** Trackpoints without a timestamp *)

(** C4.  A trackpoint without a timestamp, after one that has it, is to
    repeat the previous raw timestamp; the extraction raises
    [UnboundLocalError]. *)
Theorem Time_get_data_time_gap :
  Time.get_data (B := Decimal.builtins) Doc.time_gap = Raise UnboundLocalError.
Proof. vm_compute; reflexivity. Qed.

(** C9.  A first trackpoint without the field is to fail with an
    index-out-of-range error.  The shared extraction does (here for
    Distance); the extraction of Time raises [UnboundLocalError]. *)
Theorem Time_get_data_time_late {B : Builtins} :
  Time.get_data Doc.time_late = Raise UnboundLocalError
  /\ Measure.get_data Doc.distance_late "DistanceMeters" = Raise IndexError.
Proof.
  split.
  - rewrite Time_get_data_loop. reflexivity.
  - rewrite Measure_get_data_loop. reflexivity.
Qed.

(** ** The parser's entry *)

Lemma TCXParser_init_no_path {B : Builtins} (fs : FileSystem) :
  TCXParser.__init__ fs None = Ok TCXParser.uninitialised.
Proof. reflexivity. Qed.

Lemma TCXParser_init_other_extension {B : Builtins} (fs : FileSystem) (tcx_file : string) :
  endswith (lower tcx_file) ".tcx" = false ->
  endswith (lower tcx_file) ".xml" = false ->
  TCXParser.__init__ fs (Some tcx_file) = Ok TCXParser.uninitialised.
Proof.
  intros H1 H2; unfold TCXParser.__init__, TCXParser.get_root.
  rewrite H1, H2; reflexivity.
Qed.

Lemma TCXParser_init_other_root {B : Builtins} (fs : FileSystem) (tcx_file : string)
      (tree : Element) :
  endswith (lower tcx_file) ".tcx" || endswith (lower tcx_file) ".xml" = true ->
  fs tcx_file = Some (Xml tree) ->
  String.eqb (tag tree) "ns:TrainingCenterDatabase" = false ->
  TCXParser.__init__ fs (Some tcx_file) = Raise IndexError.
Proof.
  intros He Hf Ht; unfold TCXParser.__init__, TCXParser.get_root, open.
  rewrite He, Hf. cbn [bind etree_parse].
  unfold tree_xpath. change (steps "/ns:TrainingCenterDatabase")
    with ([""; "ns:TrainingCenterDatabase"]%string).
  cbn [String.eqb andb]. rewrite Ht. reflexivity.
Qed.

(** C8.  A path that names a document without the expected root element is
    to give an object with no channel; [xpath(...)[0]] raises [IndexError]
    before the test that follows it. *)
Theorem TCXParser_init_missing_root {B : Builtins} :
  TCXParser.__init__ (Doc.single "run.tcx" (Xml Doc.gpx)) (Some "run.tcx"%string)
  = Raise IndexError.
Proof. reflexivity. Qed.

(** ** Pace over a zero distance *)

Lemma Distance_init_Ok {B : Builtins} (root : Element) (ds : Distance.t) :
  Distance.__init__ root = Ok ds ->
  Measure.get_data root "DistanceMeters" = Ok (Measure.data ds).
Proof.
  unfold Distance.__init__; intros H.
  apply bind_Ok in H; destruct H as [data [H E]].
  injection E as <-; exact H.
Qed.

Lemma Pace_init_zero_distance {B : Builtins} (root : Element) (tm : Time.t)
      (ds : Distance.t) (dl : list Q) (d : Q) :
  Time.__init__ root = Ok tm ->
  Distance.__init__ root = Ok ds ->
  Measure.data ds = Some dl ->
  In d dl -> (d == 0)%Q ->
  Pace.__init__ tm ds = Raise ZeroDivisionError.
Proof.
  intros Ht Hd Hdl Hin Hz.
  destruct (Time_init_Ok _ Ht) as [r0 [rest [-> [Lt _]]]].
  apply Distance_init_Ok in Hd. rewrite Hdl in Hd.
  apply Measure_get_data_Some in Hd; destruct Hd as [_ [Ld Hne]].
  destruct dl as [| d0 dl]; [congruence |].
  unfold Pace.__init__.
  erewrite Pace_get_data_present; [| reflexivity | exact Hdl].
  rewrite pace_loop_raises; [reflexivity |].
  destruct (in_combine_r_ex (map (fun x => (x - r0)%Z) (r0 :: rest)) (d0 :: dl) d)
    as [t Hin'].
  - rewrite length_map; congruence.
  - exact Hin.
  - exists t, d; split; [exact Hin' | apply zero_divisor, Hz].
Qed.

(** C5 (as amended).  When Time and Distance are both present and some
    trackpoint's cumulative distance is zero, constructing Pace raises a
    division-by-zero error; constructing the parser on such a file never
    yields an object: it raises, and what it raises is the division-by-zero
    error whenever the five channels built before Pace are built without
    error. *)
Theorem zero_distance_raises {B : Builtins} (fs : FileSystem) (tcx_file : option string)
        (root : Element) (tm : Time.t) (ds : Distance.t) (dl : list Q) (d : Q) :
  TCXParser.get_root fs tcx_file = Ok (Some root) ->
  Time.__init__ root = Ok tm ->
  Distance.__init__ root = Ok ds ->
  Measure.data ds = Some dl ->
  In d dl -> (d == 0)%Q ->
  Pace.__init__ tm ds = Raise ZeroDivisionError
  /\ (exists e, TCXParser.__init__ fs tcx_file = Raise e)
  /\ ((exists hr sp ca lo al,
         HeartRate.__init__ root = Ok hr /\ Speed.__init__ root = Ok sp
         /\ Cadence.__init__ root = Ok ca /\ Location.__init__ root = Ok lo
         /\ Altitude.__init__ root = Ok al) ->
      TCXParser.__init__ fs tcx_file = Raise ZeroDivisionError).
Proof.
  intros Hr Ht Hd Hdl Hin Hz.
  pose proof (Pace_init_zero_distance _ Ht Hd Hdl Hin Hz) as Hp.
  split; [exact Hp |].
  unfold TCXParser.__init__. rewrite Hr. cbn [bind]. rewrite Ht. cbn [bind].
  split.
  - destruct (HeartRate.__init__ root) as [hr | e]; [| exists e; reflexivity].
    cbn [bind]. rewrite Hd. cbn [bind].
    destruct (Speed.__init__ root) as [sp | e]; [| exists e; reflexivity].
    destruct (Cadence.__init__ root) as [ca | e]; [| exists e; reflexivity].
    destruct (Location.__init__ root) as [lo | e]; [| exists e; reflexivity].
    destruct (Altitude.__init__ root) as [al | e]; [| exists e; reflexivity].
    cbn [bind]. rewrite Hp. exists ZeroDivisionError; reflexivity.
  - intros [hr [sp [ca [lo [al [H1 [H2 [H3 [H4 H5]]]]]]]]].
    rewrite H1. cbn [bind]. rewrite Hd. cbn [bind].
    rewrite H2, H3, H4, H5. cbn [bind]. rewrite Hp. reflexivity.
Qed.

Lemma zero_distance_raises_witness :
  Pace.__init__ Doc.two_samples_time Doc.zero_start_distance = Raise ZeroDivisionError
  /\ TCXParser.__init__ (B := Decimal.builtins)
       (Doc.single "run.tcx" (Xml (Doc.database Doc.zero_start_plain)))
       (Some "run.tcx"%string) = Raise ZeroDivisionError.
Proof.
  destruct (zero_distance_raises (B := Decimal.builtins)
              (Doc.single "run.tcx" (Xml (Doc.database Doc.zero_start_plain)))
              (Some "run.tcx"%string) (root := Doc.zero_start_plain)
              (tm := Doc.two_samples_time) (ds := Doc.zero_start_distance)
              (dl := [0; 50]%Q) (d := 0%Q)) as [Hp [_ Hall]].
  - vm_compute; reflexivity.
  - vm_compute; reflexivity.
  - vm_compute; reflexivity.
  - reflexivity.
  - left; reflexivity.
  - reflexivity.
  - split; [exact Hp |]. apply Hall.
    exists (Doc.absent Q), (Doc.absent Q), (Doc.absent Q), (Doc.absent (Q * Q)), (Doc.absent Q).
    repeat split; vm_compute; reflexivity.
Defined.

(** C5, as stated, fails: with the distance starting at zero and the heart
    rate starting on the second trackpoint, Time and Distance are both
    present, and the parser raises [IndexError] (from HeartRate), not a
    division-by-zero error. *)
Lemma zero_distance_IndexError :
  Time.__init__ (B := Decimal.builtins) Doc.zero_start = Ok Doc.two_samples_time
  /\ Distance.__init__ (B := Decimal.builtins) Doc.zero_start = Ok Doc.zero_start_distance
  /\ In 0%Q [0; 50]%Q
  /\ TCXParser.__init__ (B := Decimal.builtins)
       (Doc.single "run.tcx" (Xml (Doc.database Doc.zero_start)))
       (Some "run.tcx"%string) = Raise IndexError
  /\ Raise IndexError <> Raise (A := TCXParser.t) ZeroDivisionError.
Proof.
  repeat split; try (vm_compute; reflexivity).
  - left; reflexivity.
  - discriminate.
Qed.

(** ** The pace values *)

Lemma nth_error_combine {A C : Type} (l1 : list A) (l2 : list C) (i : nat) (a : A) (c : C) :
  nth_error l1 i = Some a -> nth_error l2 i = Some c ->
  nth_error (combine l1 l2) i = Some (a, c).
Proof.
  revert l2 i; induction l1 as [| x l1 IH]; intros [| y l2] [| i] H1 H2;
    try discriminate H1; try discriminate H2; simpl in *.
  - injection H1 as ->; injection H2 as ->; reflexivity.
  - apply IH; assumption.
Qed.

(** On a whole number of seconds under one day, the field the code reads
    is the elapsed time in seconds. *)
Lemma whole_seconds (td : timedelta) :
  whole_seconds_within_a_day td ->
  (inject_Z (timedelta_seconds td) == elapsedSeconds td)%Q.
Proof.
  intros [[H0 H1] Hm]. unfold timedelta_seconds, elapsedSeconds.
  pose proof (Z.div_mod td 1000000 ltac:(lia)) as E. rewrite Hm, Z.add_0_r in E.
  rewrite Z.mod_small by lia.
  unfold Qeq, Qdiv, Qmult, Qinv, inject_Z; simpl. lia.
Qed.

(** The pace series of a constructed Pace, value by value as the loop
    writes it. *)
Lemma Pace_init_Ok (tm : Time.t) (ds : Distance.t) (p : Pace.t)
      (t0 : timedelta) (ts : list timedelta) (d0 : Q) (dl : list Q) :
  Pace.__init__ tm ds = Ok p ->
  Time.data tm = Some (t0 :: ts) ->
  Measure.data ds = Some (d0 :: dl) ->
  Measure.data p
  = Some (map (fun td => pace_at t0 (fst td) (snd td)) (combine (t0 :: ts) (d0 :: dl))).
Proof.
  intros H Ht Hd. unfold Pace.__init__ in H.
  rewrite (Pace_get_data_present _ _ Ht Hd) in H.
  apply bind_Ok in H; destruct H as [data [H E]].
  apply bind_Ok in H; destruct H as [pl [H E']].
  apply pace_loop_Ok in H. injection E' as <-. injection E as <-.
  rewrite H; reflexivity.
Qed.

(** X21.  Where the [.seconds] field and the elapsed time agree: when Time
    and Distance are both present and Pace is built, the pace series is as
    long as both, and at every index whose elapsed time is a whole number
    of seconds from zero up to one day its value is
    (elapsed seconds / 60) / (cumulative distance / 1000), both taken at
    that index. *)
Theorem Pace_value_whole_seconds {B : Builtins} (root : Element) (tm : Time.t)
        (ds : Distance.t) (p : Pace.t) :
  Time.__init__ root = Ok tm ->
  Distance.__init__ root = Ok ds ->
  Pace.__init__ tm ds = Ok p ->
  exists tl dl pl,
    Time.data tm = Some tl /\ Measure.data ds = Some dl /\ Measure.data p = Some pl
    /\ List.length pl = List.length tl /\ List.length pl = List.length dl
    /\ forall (i : nat) (t : timedelta) (d : Q),
         nth_error tl i = Some t -> nth_error dl i = Some d ->
         whole_seconds_within_a_day t ->
         exists q, nth_error pl i = Some q
                   /\ (q == (elapsedSeconds t / 60) / (d / 1000))%Q.
Proof.
  intros Ht Hd Hp.
  destruct (Time_init_Ok _ Ht) as [r0 [rest [-> [Lt _]]]].
  apply Distance_init_Ok in Hd.
  destruct (Measure.data ds) as [dl |] eqn:Hdl.
  - apply Measure_get_data_Some in Hd; destruct Hd as [_ [Ld Hne]].
    destruct dl as [| d0 dl]; [congruence |].
    pose proof (@Pace_init_Ok _ ds p (r0 - r0)%Z (map (fun x => (x - r0)%Z) rest)
                  d0 dl Hp eq_refl Hdl) as E.
    exists ((r0 - r0)%Z :: map (fun x => (x - r0)%Z) rest), (d0 :: dl).
    eexists; split; [reflexivity |]. split; [reflexivity |]. split; [exact E |].
    assert (L : List.length ((r0 - r0)%Z :: map (fun x => (x - r0)%Z) rest)
                = List.length (d0 :: dl))
      by (simpl List.length in *; rewrite length_map; congruence).
    split; [| split].
    + unfold timedelta in *. rewrite length_map, length_combine, L. apply Nat.min_id.
    + unfold timedelta in *. rewrite length_map, length_combine, L. apply Nat.min_id.
    + intros i t d Hi Hj Hw.
      exists (pace_at (r0 - r0)%Z t d). split.
      * rewrite (map_nth_error _ _ _ (nth_error_combine _ _ _ Hi Hj)); reflexivity.
      * unfold pace_at. rewrite Z.sub_diag, Z.sub_0_r.
        rewrite (whole_seconds Hw). reflexivity.
  - exfalso. unfold Pace.__init__ in Hp.
    erewrite Pace_get_data_no_distance in Hp; [discriminate Hp | reflexivity | exact Hdl].
Qed.

Lemma Pace_value_whole_seconds_witness :
  exists p q,
    Pace.__init__ Doc.two_samples_time Doc.two_samples_distance = Ok p
    /\ Measure.__getitem__ (Time.data Doc.two_samples_time) 1 = Ok 10000000%Z
    /\ Measure.__getitem__ (Measure.data Doc.two_samples_distance) 1 = Ok 50%Q
    /\ whole_seconds_within_a_day 10000000%Z
    /\ Measure.__getitem__ (Measure.data p) 1 = Ok q
    /\ (q == (elapsedSeconds 10000000%Z / 60) / (50 / 1000))%Q.
Proof.
  exists (Measure.mk (Some [pace_at 0%Z 0%Z 20; pace_at 0%Z 10000000%Z 50])).
  destruct (Pace_value_whole_seconds (B := Decimal.builtins) Doc.two_samples
              (tm := Doc.two_samples_time) (ds := Doc.two_samples_distance)
              (p := Measure.mk (Some [pace_at 0%Z 0%Z 20; pace_at 0%Z 10000000%Z 50])))
    as [tl [dl [pl [Htl [Hdl [Hpl [_ [_ H]]]]]]]].
  - vm_compute; reflexivity.
  - vm_compute; reflexivity.
  - reflexivity.
  - injection Htl as <-. injection Hdl as <-. injection Hpl as <-.
    assert (Hw : whole_seconds_within_a_day 10000000%Z)
      by (split; [split; [discriminate | reflexivity] | reflexivity]).
    destruct (H 1%nat 10000000%Z 50%Q eq_refl eq_refl Hw) as [q [Hq Heq]].
    exists q. injection Hq as <-.
    split; [reflexivity |]. split; [reflexivity |]. split; [reflexivity |].
    split; [exact Hw |]. split; [reflexivity | exact Heq].
Defined.

(** C6.  [Pace.get_data] reads the [.seconds] field of the elapsed time,
    not the elapsed seconds: with the second sample one day and one minute
    after the first, the elapsed time at index 1 is 86460 seconds, and the
    pace there is (60 / 60) / (2000 / 1000), which is 0.5, not
    (86460 / 60) / (2000 / 1000), which is 720.5. *)
Lemma Pace_next_day :
  Time.__init__ (B := Decimal.builtins) Doc.next_day = Ok Doc.next_day_time
  /\ Distance.__init__ (B := Decimal.builtins) Doc.next_day = Ok Doc.next_day_distance
  /\ Measure.__getitem__ (Time.data Doc.next_day_time) 1 = Ok 86460000000%Z
  /\ (elapsedSeconds 86460000000%Z == 86460)%Q
  /\ exists p q,
       Pace.__init__ Doc.next_day_time Doc.next_day_distance = Ok p
       /\ Measure.__getitem__ (Measure.data p) 1 = Ok q
       /\ (q == (60 / 60) / (2000 / 1000))%Q
       /\ ~ (q == (elapsedSeconds 86460000000%Z / 60) / (2000 / 1000))%Q.
Proof.
  split; [vm_compute; reflexivity |].
  split; [vm_compute; reflexivity |].
  split; [vm_compute; reflexivity |].
  split; [vm_compute; reflexivity |].
  exists (Measure.mk (Some [pace_at 0%Z 0%Z 1000; pace_at 0%Z 86460000000%Z 2000])).
  exists (pace_at 0%Z 86460000000%Z 2000).
  split; [reflexivity |]. split; [vm_compute; reflexivity |].
  split; [vm_compute; reflexivity |].
  intros H; vm_compute in H; discriminate H.
Qed.

(** ** The summary accessors of Pace *)

(** C7 (as amended).  For every present Pace channel, [min] returns the
    largest pace value and [average] the last one; when some pace value is
    strictly positive, [max] returns the smallest strictly positive one. *)
Theorem Pace_summary (p : Pace.t) (l : list Q) :
  Measure.data p = Some l -> l <> [] ->
  (exists m, Pace.min p = Ok (Some m) /\ In m l /\ forall x, In x l -> (x <= m)%Q)
  /\ (exists a, Pace.average p = Ok (Some a)
                /\ nth_error l (List.length l - 1) = Some a)
  /\ ((exists x, In x l /\ (0 < x)%Q) ->
      exists m, Pace.max p = Ok (Some m) /\ In m l /\ (0 < m)%Q
                /\ forall x, In x l -> (0 < x)%Q -> (m <= x)%Q).
Proof.
  intros Hd Hne. destruct l as [| x l]; [congruence |].
  unfold Pace.min, Pace.average, Pace.max. rewrite Hd.
  split; [| split].
  - destruct (py_max_spec Hne) as [m [E [Hin Hmax]]].
    exists m. rewrite E. repeat split; assumption.
  - exists (last l x). rewrite getitem_minus_one. split; [reflexivity |].
    replace (List.length (x :: l) - 1)%nat with (List.length l) by (simpl; lia).
    apply nth_error_last.
  - intros [y [Hy Hpos]]. cbn zeta.
    assert (Hli : filter (fun x => Qltb 0 x) (x :: l) <> []).
    { intros E. assert (Hin : In y (filter (fun x => Qltb 0 x) (x :: l)))
        by (apply filter_In; split; [exact Hy | apply Qltb_lt, Hpos]).
      rewrite E in Hin; destruct Hin. }
    destruct (py_min_spec Hli) as [m [E [Hin Hmin]]].
    exists m. rewrite E. apply filter_In in Hin; destruct Hin as [Hin Hm].
    split; [reflexivity |]. split; [exact Hin |]. split; [apply Qltb_lt, Hm |].
    intros z Hz Hzpos. apply Hmin, filter_In. split; [exact Hz | apply Qltb_lt, Hzpos].
Qed.

Lemma Pace_summary_witness :
  (exists m, Pace.min (Measure.mk (Some [0; 10 # 3]%Q)) = Ok (Some m)
             /\ In m [0; 10 # 3]%Q /\ forall x, In x [0; 10 # 3]%Q -> (x <= m)%Q)
  /\ (exists a, Pace.average (Measure.mk (Some [0; 10 # 3]%Q)) = Ok (Some a)
                /\ nth_error [0; 10 # 3]%Q (List.length [0; 10 # 3]%Q - 1) = Some a)
  /\ exists m, Pace.max (Measure.mk (Some [0; 10 # 3]%Q)) = Ok (Some m)
               /\ In m [0; 10 # 3]%Q /\ (0 < m)%Q
               /\ forall x, In x [0; 10 # 3]%Q -> (0 < x)%Q -> (m <= x)%Q.
Proof.
  destruct (@Pace_summary (Measure.mk (Some [0; 10 # 3]%Q)) [0; 10 # 3]%Q eq_refl)
    as [Hmin [Havg Hmax]].
  - discriminate.
  - split; [exact Hmin |]. split; [exact Havg |].
    apply Hmax. exists (10 # 3)%Q. split; [right; left; reflexivity | reflexivity].
Defined.

(** C7, as stated, fails: a single sample gives the present pace series
    [0], which has no strictly positive value, and [max] raises
    [ValueError]. *)
Lemma Pace_max_one_sample :
  Time.__init__ (B := Decimal.builtins) Doc.one_sample = Ok Doc.one_sample_time
  /\ Distance.__init__ (B := Decimal.builtins) Doc.one_sample = Ok Doc.one_sample_distance
  /\ exists p q,
       Pace.__init__ Doc.one_sample_time Doc.one_sample_distance = Ok p
       /\ Measure.data p = Some [q] /\ (q == 0)%Q
       /\ Pace.max p = Raise ValueError.
Proof.
  split; [vm_compute; reflexivity |].
  split; [vm_compute; reflexivity |].
  exists (Measure.mk (Some [pace_at 0%Z 0%Z 1000])), (pace_at 0%Z 0%Z 1000).
  repeat split; vm_compute; reflexivity.
Qed.

(** ** What the shared extraction does keep

    The statements below cover the cases where the code does as the
    specification says. *)

(** X1.  Carry-forward in the shared extraction (every channel but Time and
    Location): a trackpoint after the first that lacks the field repeats
    the value of the trackpoint before it. *)
Theorem Measure_carry_forward {B : Builtins} (root : Element) (var : string)
        (data : list Q) (k : nat) (trkpt : Element) :
  Measure.get_data root var = Ok (Some data) ->
  nth_error (Trackpoints root) (S k) = Some trkpt ->
  xpath trkpt ("./ns:" ++ var) = [] ->
  exists v, nth_error data k = Some v /\ nth_error data (S k) = Some v.
Proof.
  intros H Hk Hmiss.
  apply Measure_get_data_Some in H; destruct H as [H _].
  destruct (sample_loop_carry _ _ _ H _ Hk Hmiss) as [v [_ [Ha Hb]]].
  simpl in Ha, Hb. rewrite Nat.sub_0_r in Ha.
  exists v; split; assumption.
Qed.

Lemma Measure_carry_forward_witness :
  exists v, nth_error [20; 20]%Q 0%nat = Some v /\ nth_error [20; 20]%Q 1%nat = Some v.
Proof.
  apply (@Measure_carry_forward Decimal.builtins Doc.distance_gap "DistanceMeters"
           [20; 20]%Q 0%nat (Doc.trackpoint [Doc.time "2017-03-05T09:00:10.000Z"])).
  - vm_compute; reflexivity.
  - reflexivity.
  - reflexivity.
Defined.

(** X2.  A field that occurs in the document and is missing on the very first
    trackpoint makes the shared extraction raise [IndexError]. *)
Theorem Measure_first_missing {B : Builtins} (root : Element) (var : string)
        (trkpt : Element) (rest : list Element) :
  findall root ("./ns:Lap/ns:Track/ns:Trackpoint/ns:" ++ var) <> [] ->
  Trackpoints root = trkpt :: rest ->
  xpath trkpt ("./ns:" ++ var) = [] ->
  Measure.get_data root var = Raise IndexError.
Proof.
  intros Hf Ht Hmiss. rewrite Measure_get_data_loop.
  destruct (findall root _) as [| e es]; [congruence |].
  cbn [List.length Nat.ltb Nat.leb]. rewrite Ht. cbn [for_].
  rewrite (sample_missing _ _ _ Hmiss), getitem_nil. reflexivity.
Qed.

Lemma Measure_first_missing_witness :
  Measure.get_data (B := Decimal.builtins) Doc.distance_late "DistanceMeters"
  = Raise IndexError.
Proof.
  apply (@Measure_first_missing Decimal.builtins Doc.distance_late "DistanceMeters"
           (Doc.trackpoint [Doc.time "2017-03-05T09:00:00.000Z"])
           [Doc.trackpoint [Doc.time "2017-03-05T09:00:10.000Z"; Doc.distance "50"]]).
  - discriminate.
  - reflexivity.
  - reflexivity.
Defined.

(** Carry-forward for Location: a trackpoint after the first without
    a position repeats the pair of the trackpoint before it. *)
Theorem Location_carry_forward {B : Builtins} (root : Element) (data : list (Q * Q))
        (k : nat) (trkpt : Element) :
  Location.get_data root = Ok (Some data) ->
  nth_error (Trackpoints root) (S k) = Some trkpt ->
  xpath trkpt "./ns:Position" = [] ->
  exists v, nth_error data k = Some v /\ nth_error data (S k) = Some v.
Proof.
  intros H Hk Hmiss.
  apply Location_get_data_Some in H.
  destruct (@loop_carry _ position (fun trkpt => xpath trkpt "./ns:Position" = [])
              position_Ok _ _ _ H _ _ Hk Hmiss) as [v [_ [Ha Hb]]].
  simpl in Ha, Hb. rewrite Nat.sub_0_r in Ha.
  exists v; split; assumption.
Qed.

Lemma Location_carry_forward_witness :
  exists v, nth_error [(1, 2); (1, 2)]%Q 0%nat = Some v
            /\ nth_error [(1, 2); (1, 2)]%Q 1%nat = Some v.
Proof.
  apply (@Location_carry_forward Decimal.builtins Doc.position_gap
           [(1, 2); (1, 2)]%Q 0%nat (Doc.trackpoint [Doc.distance "50"])).
  - vm_compute; reflexivity.
  - reflexivity.
  - reflexivity.
Defined.

(** X12.  A position that occurs in the document and is missing on the
    very first trackpoint makes the extraction of Location raise
    [IndexError]. *)
Theorem Location_first_missing {B : Builtins} (root : Element)
        (trkpt : Element) (rest : list Element) :
  findall root "./ns:Lap/ns:Track/ns:Trackpoint/ns:Position" <> [] ->
  Trackpoints root = trkpt :: rest ->
  xpath trkpt "./ns:Position" = [] ->
  Location.get_data root = Raise IndexError.
Proof.
  intros Hf Ht Hmiss. rewrite Location_get_data_loop.
  destruct (findall root _) as [| e es]; [congruence |].
  cbn [List.length Nat.ltb Nat.leb]. rewrite Ht. cbn [for_].
  rewrite (position_handler _ _ (no_position _ Hmiss)), getitem_nil. reflexivity.
Qed.

Lemma Location_first_missing_witness :
  Location.get_data (B := Decimal.builtins) Doc.position_late = Raise IndexError.
Proof.
  apply (@Location_first_missing Decimal.builtins Doc.position_late
           (Doc.trackpoint [Doc.distance "20"])
           [Doc.trackpoint [Doc.position "1" "2"; Doc.distance "50"]]).
  - discriminate.
  - reflexivity.
  - reflexivity.
Defined.

Lemma Location_get_data_None {B : Builtins} (root : Element) :
  findall root "./ns:Lap/ns:Track/ns:Trackpoint/ns:Position" = [] ->
  Location.get_data root = Ok None.
Proof.
  intros H; unfold Location.get_data; rewrite H; reflexivity.
Qed.

(** The six channels other than Time are absent, without raising, when no
    trackpoint carries their field. *)
Theorem absent_channels {B : Builtins} (root : Element) :
  (findall root "./ns:Lap/ns:Track/ns:Trackpoint/ns:HeartRateBpm/ns:Value" = [] ->
   HeartRate.__init__ root = Ok (Measure.mk None))
  /\ (findall root "./ns:Lap/ns:Track/ns:Trackpoint/ns:DistanceMeters" = [] ->
      Distance.__init__ root = Ok (Measure.mk None))
  /\ (findall root "./ns:Lap/ns:Track/ns:Trackpoint/ns:Extensions/ns3:TPX/ns3:Speed" = [] ->
      Speed.__init__ root = Ok (Measure.mk None))
  /\ (findall root "./ns:Lap/ns:Track/ns:Trackpoint/ns:Extensions/ns3:TPX/ns3:RunCadence" = [] ->
      Cadence.__init__ root = Ok (Measure.mk None))
  /\ (findall root "./ns:Lap/ns:Track/ns:Trackpoint/ns:Position" = [] ->
      Location.__init__ root = Ok (Measure.mk None))
  /\ (findall root "./ns:Lap/ns:Track/ns:Trackpoint/ns:AltitudeMeters" = [] ->
      Altitude.__init__ root = Ok (Measure.mk None)).
Proof.
  repeat split; intros H.
  - unfold HeartRate.__init__. rewrite Measure_get_data_None by exact H. reflexivity.
  - unfold Distance.__init__. rewrite Measure_get_data_None by exact H. reflexivity.
  - unfold Speed.__init__. rewrite Measure_get_data_None by exact H. reflexivity.
  - unfold Cadence.__init__. rewrite Measure_get_data_None by exact H. reflexivity.
  - unfold Location.__init__. rewrite Location_get_data_None by exact H. reflexivity.
  - unfold Altitude.__init__. rewrite Measure_get_data_None by exact H. reflexivity.
Qed.

(** On an absent channel every statistic returns no result, and none
    raises. *)
Theorem absent_statistics :
  let none := Measure.mk (A := Q) None in
  let nowhere := Measure.mk (A := Q * Q) None in
  HeartRate.min none = Ok None /\ HeartRate.max none = Ok None
  /\ HeartRate.average none = Ok None
  /\ Distance.raw none = Ok None /\ Distance.total none = Ok None
  /\ Speed.min none = Ok None /\ Speed.max none = Ok None /\ Speed.average none = Ok None
  /\ Cadence.min none = Ok None /\ Cadence.max none = Ok None
  /\ Cadence.average none = Ok None
  /\ Location.start nowhere = Ok None /\ Location.finish nowhere = Ok None
  /\ Location.latitude nowhere = Ok None /\ Location.longitude nowhere = Ok None
  /\ Altitude.min none = Ok None /\ Altitude.max none = Ok None
  /\ Altitude.average none = Ok None /\ Altitude.change none = Ok None
  /\ Pace.min none = Ok None /\ Pace.max none = Ok None /\ Pace.average none = Ok None
  /\ Pace.seconds none = Ok None.
Proof.
  cbv zeta. repeat split; reflexivity.
Qed.

(** A Time channel is only ever built from a document in which every
    trackpoint carries a timestamp: it never carries a value forward. *)
Theorem Time_never_carries {B : Builtins} (root : Element) (tm : Time.t) :
  Time.__init__ root = Ok tm ->
  Forall (fun trkpt => xpath trkpt "./ns:Time" <> []) (Trackpoints root).
Proof.
  intros H. destruct (Time_init_Ok _ H) as [r0 [rest [_ [_ F]]]]. exact F.
Qed.

Lemma Time_never_carries_witness :
  Forall (fun trkpt => xpath trkpt "./ns:Time" <> []) (Trackpoints Doc.two_samples).
Proof.
  apply (@Time_never_carries Decimal.builtins Doc.two_samples Doc.two_samples_time).
  vm_compute; reflexivity.
Defined.

(** ** Pace, when it is built *)

Lemma nonzero_divisor (d : Q) : (1 <= d)%Q -> Qeq_bool (d / 1000) 0 = false.
Proof.
  intros H. destruct (Qeq_bool (d / 1000) 0) eqn:E; [| reflexivity].
  exfalso. apply Qeq_bool_iff in E. unfold Qdiv in E.
  apply Qmult_integral in E. destruct E as [E | E]; [| discriminate E].
  rewrite E in H. apply Qle_not_lt in H. apply H. reflexivity.
Qed.

Lemma pace_loop_succeeds (t0 : timedelta) (l : list (timedelta * Q)) (acc : list Q) :
  (forall td, In td l -> (1 <= snd td)%Q) ->
  for_ l acc (pace_step t0) = Ok (acc ++ map (fun td => pace_at t0 (fst td) (snd td)) l).
Proof.
  revert acc; induction l as [| [t d] l IH]; intros acc H; simpl.
  - rewrite app_nil_r; reflexivity.
  - assert (Hd : (1 <= d)%Q) by exact (H (t, d) (or_introl eq_refl)).
    rewrite (nonzero_divisor Hd). simpl.
    rewrite IH by (intros td Hin; apply H; right; exact Hin).
    rewrite <- app_assoc; reflexivity.
Qed.

(** X6.  When Time and Distance are both present and every cumulative
    distance is at least one metre, Pace is present and as long as each of
    them.  The bound, rather than a distance other than zero, keeps the
    divisor [d / 1000] away from zero whatever the rounding. *)
Theorem Pace_present_length {B : Builtins} (root : Element) (tm : Time.t)
        (ds : Distance.t) (dl : list Q) :
  Time.__init__ root = Ok tm ->
  Distance.__init__ root = Ok ds ->
  Measure.data ds = Some dl ->
  (forall d, In d dl -> (1 <= d)%Q) ->
  exists p tl pl,
    Pace.__init__ tm ds = Ok p
    /\ Time.data tm = Some tl /\ Measure.data p = Some pl
    /\ List.length pl = List.length tl /\ List.length pl = List.length dl.
Proof.
  intros Ht Hd Hdl Hnz.
  destruct (Time_init_Ok _ Ht) as [r0 [rest [-> [Lt _]]]].
  apply Distance_init_Ok in Hd. rewrite Hdl in Hd.
  apply Measure_get_data_Some in Hd; destruct Hd as [_ [Ld Hne]].
  destruct dl as [| d0 dl]; [congruence |].
  unfold Pace.__init__.
  rewrite (@Pace_get_data_present
             (Time.mk (Some (map (fun x => (x - r0)%Z) (r0 :: rest)))
                      (AbsTime.__init__ (r0 :: rest)))
             ds (r0 - r0)%Z (map (fun x => (x - r0)%Z) rest) d0 dl eq_refl Hdl).
  rewrite pace_loop_succeeds
    by (intros [t d] Hin; apply Hnz; exact (in_combine_r _ _ _ _ Hin)).
  cbn [bind app].
  eexists; exists ((r0 - r0)%Z :: map (fun x => (x - r0)%Z) rest); eexists.
  split; [reflexivity |]. split; [reflexivity |]. split; [reflexivity |].
  unfold timedelta in *.
  assert (L : List.length ((r0 - r0)%Z :: map (fun x => (x - r0)%Z) rest)
              = List.length (d0 :: dl))
    by (simpl List.length in *; rewrite length_map; congruence).
  split; rewrite length_map, length_combine, L; apply Nat.min_id.
Qed.

Lemma Pace_present_length_witness :
  exists p tl pl,
    Pace.__init__ Doc.two_samples_time Doc.two_samples_distance = Ok p
    /\ Time.data Doc.two_samples_time = Some tl /\ Measure.data p = Some pl
    /\ List.length pl = List.length tl /\ List.length pl = List.length [20; 50]%Q.
Proof.
  apply (@Pace_present_length Decimal.builtins Doc.two_samples Doc.two_samples_time
           Doc.two_samples_distance [20; 50]%Q).
  - vm_compute; reflexivity.
  - vm_compute; reflexivity.
  - reflexivity.
  - intros d [<- | [<- | []]]; unfold Qle; simpl; lia.
Defined.

(** ** The parser, when it does not read a document *)

(** X7.  Without a path, or with a path whose extension is neither [.tcx] nor
    [.xml], the parser returns an object with no channel and does not
    raise. *)
Theorem TCXParser_init_unsupported {B : Builtins} (fs : FileSystem) :
  TCXParser.__init__ fs None = Ok TCXParser.uninitialised
  /\ forall tcx_file,
       endswith (lower tcx_file) ".tcx" || endswith (lower tcx_file) ".xml" = false ->
       TCXParser.__init__ fs (Some tcx_file) = Ok TCXParser.uninitialised.
Proof.
  split; [apply TCXParser_init_no_path |].
  intros tcx_file H. apply orb_false_iff in H; destruct H as [H1 H2].
  apply TCXParser_init_other_extension; assumption.
Qed.

(** ** Altitude.change, the sibling of Distance.raw *)

Lemma getitem_nth {A : Type} (l : list A) (i : nat) (a : A) :
  nth_error l i = Some a -> getitem l (Z.of_nat i) = Ok a.
Proof.
  intros H. unfold getitem.
  assert (Hi : (i < List.length l)%nat) by (apply nth_error_Some; congruence).
  replace (Z.of_nat i <? 0)%Z with false by (symmetry; apply Z.ltb_ge; lia).
  replace ((0 <=? Z.of_nat i) && (Z.of_nat i <? Z.of_nat (List.length l)))%Z with true
    by (symmetry; apply andb_true_iff; split; [apply Z.leb_le | apply Z.ltb_lt]; lia).
  rewrite Nat2Z.id, H. reflexivity.
Qed.

(** After the first turn, the loop of [change] appends the consecutive
    differences. *)
Lemma change_loop (L s pre : list Q) (p : Q) (acc : list Q) :
  L = (pre ++ [p]) ++ s ->
  for_ (combine (seq (S (List.length pre)) (List.length s)) s) acc
       (fun alt_delta iv =>
          let '(i, val) := iv in
          if (i =? 0)%nat then Ok (alt_delta ++ [(val - val)%Q])
          else
            prev <- getitem L (Z.of_nat i - 1) ;;
            Ok (alt_delta ++ [(val - prev)%Q]))
  = Ok (acc ++ diffs p s).
Proof.
  revert pre p acc; induction s as [| b s IH]; intros pre p acc HL.
  - simpl. rewrite app_nil_r. reflexivity.
  - cbn [List.length seq combine for_ Nat.eqb].
    replace (Z.of_nat (S (List.length pre)) - 1)%Z with (Z.of_nat (List.length pre)) by lia.
    rewrite (@getitem_nth _ L (List.length pre) p).
    + cbn [bind].
      replace (S (S (List.length pre))) with (S (List.length (pre ++ [p])))
        by (rewrite length_app; simpl; lia).
      rewrite (IH (pre ++ [p]) b (acc ++ [(b - p)%Q])).
      * rewrite <- app_assoc. reflexivity.
      * rewrite HL, <- !app_assoc. reflexivity.
    + rewrite HL, <- app_assoc, nth_error_app2 by lia.
      rewrite Nat.sub_diag. reflexivity.
Qed.

Lemma Altitude_change_diffs (x : Q) (l : list Q) :
  Altitude.change (Measure.mk (Some (x :: l))) = Ok (Some ((x - x)%Q :: diffs x l)).
Proof.
  unfold Altitude.change, enumerate.
  cbn [Measure.data List.length seq combine for_ Nat.eqb bind app].
  pose proof (@change_loop (x :: l) l [] x [(x - x)%Q] eq_refl) as E.
  cbn [List.length] in E. rewrite E. reflexivity.
Qed.

Lemma diffs_nth (p : Q) (s : list Q) (i : nat) (a b : Q) :
  nth_error (p :: s) i = Some a -> nth_error s i = Some b ->
  nth_error (diffs p s) i = Some (b - a)%Q.
Proof.
  revert p i; induction s as [| c s IH]; intros p i Ha Hb.
  - destruct i; discriminate Hb.
  - destruct i as [| i]; simpl in *.
    + injection Ha as ->; injection Hb as ->; reflexivity.
    + apply IH; assumption.
Qed.

(** X8.  For a present Altitude channel, [change] is as long as the data,
    its first value is zero and every later value is the sample minus the
    sample before it: what Distance.raw is meant to do as well. *)
Theorem Altitude_change_deltas (self : Altitude.t) (l : list Q) :
  Measure.data self = Some l -> l <> [] ->
  exists c,
    Altitude.change self = Ok (Some c)
    /\ List.length c = List.length l
    /\ (exists z, nth_error c 0 = Some z /\ (z == 0)%Q)
    /\ forall (i : nat) (a b : Q),
         nth_error l i = Some a -> nth_error l (S i) = Some b ->
         nth_error c (S i) = Some (b - a)%Q.
Proof.
  intros Hd Hne. destruct self as [data]; simpl in Hd; subst data.
  destruct l as [| x l]; [congruence |].
  exists ((x - x)%Q :: diffs x l). split; [apply Altitude_change_diffs |].
  split; [| split].
  - simpl. f_equal. clear Hne. revert x; induction l as [| b l IH]; intros x.
    + reflexivity.
    + simpl. f_equal. apply IH.
  - exists (x - x)%Q. split; [reflexivity |]. unfold Qminus. apply Qplus_opp_r.
  - intros i a b Ha Hb. simpl. apply diffs_nth; assumption.
Qed.

Lemma Altitude_change_deltas_witness :
  exists c,
    Altitude.change (Measure.mk (Some [100; 104; 101]%Q)) = Ok (Some c)
    /\ List.length c = 3%nat
    /\ (exists z, nth_error c 0 = Some z /\ (z == 0)%Q)
    /\ nth_error c 1 = Some (104 - 100)%Q
    /\ nth_error c 2 = Some (101 - 104)%Q.
Proof.
  destruct (@Altitude_change_deltas (Measure.mk (Some [100; 104; 101]%Q))
              [100; 104; 101]%Q eq_refl) as [c [Hc [Hl [Hz H]]]].
  - discriminate.
  - exists c. split; [exact Hc |]. split; [exact Hl |]. split; [exact Hz |].
    split; [apply (H 0%nat) | apply (H 1%nat)]; reflexivity.
Defined.

(** ** Two scenarios of the specification *)

(** Three laps of two trackpoints each, timestamps ten seconds apart,
    distance growing by 50 m per sample: the samples of all laps form one
    series of six, the duration is 50 seconds and the total distance 300. *)
Theorem three_laps_scenario :
  exists tm ds,
    Time.__init__ (B := Decimal.builtins) Doc.three_laps = Ok tm
    /\ Distance.__init__ (B := Decimal.builtins) Doc.three_laps = Ok ds
    /\ Measure.__len__ (Time.data tm) = Ok 6%nat
    /\ Time.duration tm = Ok (Some (50 * 1000000)%Z)
    /\ Distance.total ds = Ok (Some 300%Q).
Proof.
  eexists; eexists. split; [vm_compute; reflexivity |].
  split; [vm_compute; reflexivity |].
  repeat split; vm_compute; reflexivity.
Qed.

(** The device is the creator's name with the version written
    [v<major>.<minor>]. *)
Theorem device_scenario :
  TCXParser.get_device_info Doc.three_laps = Ok (Some "Forerunner"%string, "v3.10"%string).
Proof. vm_compute; reflexivity. Qed.

(** * More of the code *)

(** ** The sequence protocol of Measure *)

Lemma getitem_out_of_range {A : Type} (l : list A) (j : Z) :
  (j < - Z.of_nat (List.length l) \/ Z.of_nat (List.length l) <= j)%Z ->
  getitem l j = Raise IndexError.
Proof.
  intros H. unfold getitem.
  destruct (j <? 0)%Z eqn:Hj.
  - apply Z.ltb_lt in Hj.
    replace (0 <=? j + Z.of_nat (List.length l))%Z with false
      by (symmetry; apply Z.leb_gt; lia).
    reflexivity.
  - apply Z.ltb_ge in Hj.
    replace (j <? Z.of_nat (List.length l))%Z with false
      by (symmetry; apply Z.ltb_ge; lia).
    rewrite andb_false_r. reflexivity.
Qed.

Lemma getitem_from_end {A : Type} (l : list A) (i : nat) (x : A) :
  nth_error l i = Some x ->
  getitem l (Z.of_nat i - Z.of_nat (List.length l)) = Ok x.
Proof.
  intros H. unfold getitem.
  assert (Hi : (i < List.length l)%nat) by (apply nth_error_Some; congruence).
  replace (Z.of_nat i - Z.of_nat (List.length l) <? 0)%Z with true
    by (symmetry; apply Z.ltb_lt; lia).
  replace (Z.of_nat i - Z.of_nat (List.length l) + Z.of_nat (List.length l))%Z
    with (Z.of_nat i) by lia.
  replace ((0 <=? Z.of_nat i) && (Z.of_nat i <? Z.of_nat (List.length l)))%Z with true
    by (symmetry; apply andb_true_iff; split; [apply Z.leb_le | apply Z.ltb_lt]; lia).
  rewrite Nat2Z.id, H. reflexivity.
Qed.

(** X13.  A present channel is a sequence: its length is the number of
    values it yields, index i and index i - len read the same value, and an
    index below -len or from len on raises [IndexError]. *)
Theorem Measure_sequence_protocol {A : Type} (data : list A) :
  Measure.__len__ (Some data) = Ok (List.length data)
  /\ Measure.__iter__ (Some data) = Ok data
  /\ (forall (i : nat) (x : A),
        nth_error data i = Some x ->
        Measure.__getitem__ (Some data) (Z.of_nat i) = Ok x
        /\ Measure.__getitem__ (Some data) (Z.of_nat i - Z.of_nat (List.length data)) = Ok x)
  /\ (forall j : Z,
        (j < - Z.of_nat (List.length data) \/ Z.of_nat (List.length data) <= j)%Z ->
        Measure.__getitem__ (Some data) j = Raise IndexError).
Proof.
  split; [reflexivity |]. split; [reflexivity |]. split.
  - intros i x H. split; [apply getitem_nth, H | apply getitem_from_end, H].
  - intros j H. apply getitem_out_of_range, H.
Qed.

(** ** What the extraction records *)

Section Recording.

Context {A : Type}.
Variable step : list A -> Element -> result (list A).
Variable recorded : Element -> A -> Prop.

Hypothesis step_records : forall (data data' : list A) (trkpt : Element),
  step data trkpt = Ok data' -> exists x, data' = data ++ [x] /\ recorded trkpt x.

Lemma recording_prefix (tps : list Element) (acc data : list A) :
  for_ tps acc step = Ok data -> exists rest, data = acc ++ rest.
Proof.
  revert acc; induction tps as [| tp tps IH]; intros acc H; simpl in H.
  - injection H as <-; exists []; rewrite app_nil_r; reflexivity.
  - apply bind_Ok in H; destruct H as [acc1 [H1 H2]].
    apply step_records in H1; destruct H1 as [x [-> _]].
    destruct (IH _ H2) as [rest ->].
    exists (x :: rest); rewrite <- app_assoc; reflexivity.
Qed.

(** Every trackpoint gets one value, at its own index. *)
Lemma recording_loop (tps : list Element) (acc data : list A) :
  for_ tps acc step = Ok data ->
  forall (k : nat) (trkpt : Element),
    nth_error tps k = Some trkpt ->
    exists x, nth_error data (List.length acc + k) = Some x /\ recorded trkpt x.
Proof.
  revert acc; induction tps as [| tp tps IH]; intros acc H k trkpt Hk.
  - destruct k; discriminate Hk.
  - simpl in H. apply bind_Ok in H; destruct H as [acc1 [H1 H2]].
    apply step_records in H1; destruct H1 as [x [-> Hx]].
    destruct k as [| k].
    + injection Hk as ->.
      destruct (recording_prefix _ _ H2) as [rest ->].
      exists x. split; [| exact Hx].
      rewrite <- app_assoc, Nat.add_0_r, nth_error_app2 by lia.
      rewrite Nat.sub_diag; reflexivity.
    + simpl in Hk. destruct (IH _ H2 k trkpt Hk) as [y [Hy HP]].
      rewrite length_app in Hy; simpl in Hy.
      exists y. split; [| exact HP].
      replace (List.length acc + S k)%nat with (List.length acc + 1 + k)%nat by lia.
      exact Hy.
Qed.

End Recording.

Section Values.

Context {B : Builtins}.

Lemma sample_records (var : string) (data data' : list Q) (trkpt : Element) :
  sample var data trkpt = Ok data' ->
  exists x, data' = data ++ [x]
    /\ (forall e es, xpath trkpt ("./ns:" ++ var) = e :: es -> float (text e) = Ok x).
Proof.
  intros H.
  destruct (xpath trkpt ("./ns:" ++ var)) as [| e es] eqn:E.
  - destruct (sample_Ok _ _ _ H) as [x [-> _]].
    exists x; split; [reflexivity | intros e es F; discriminate F].
  - unfold sample in H. rewrite E, getitem_first in H. cbn [bind] in H.
    destruct (float_cases (text e)) as [[x Hx] | [Hx | Hx]]; rewrite Hx in H;
      try discriminate H.
    cbn [bind try_except_IndexError] in H. injection H as <-.
    exists x; split; [reflexivity |]. intros e' es' F; injection F as <- _; exact Hx.
Qed.

(** X14.  The value a channel holds for a trackpoint that carries the
    field is [float] of the text of the first matching element of that
    trackpoint, and every channel has one value per trackpoint. *)
Theorem Measure_value_of_first_match (root : Element) (var : string) (data : list Q)
        (k : nat) (trkpt e : Element) (es : list Element) :
  Measure.get_data root var = Ok (Some data) ->
  nth_error (Trackpoints root) k = Some trkpt ->
  xpath trkpt ("./ns:" ++ var) = e :: es ->
  List.length data = List.length (Trackpoints root)
  /\ exists x, nth_error data k = Some x /\ float (text e) = Ok x.
Proof.
  intros H Hk He.
  apply Measure_get_data_Some in H; destruct H as [H [L _]].
  split; [exact L |].
  destruct (@recording_loop _ (sample var)
              (fun trkpt x => forall e es, xpath trkpt ("./ns:" ++ var) = e :: es ->
                                           float (text e) = Ok x)
              (sample_records var) _ _ _ H _ _ Hk) as [x [Hx HP]].
  exists x; split; [exact Hx | exact (HP _ _ He)].
Qed.

Lemma sample_Raise (var : string) (data : list Q) (trkpt : Element) (err : exn) :
  sample var data trkpt = Raise err ->
  (err = IndexError /\ data = [] /\ xpath trkpt ("./ns:" ++ var) = [])
  \/ ((err = TypeError \/ err = ValueError)
      /\ exists e es, xpath trkpt ("./ns:" ++ var) = e :: es /\ float (text e) = Raise err).
Proof.
  intros H.
  destruct (xpath trkpt ("./ns:" ++ var)) as [| e es] eqn:E.
  - rewrite (sample_missing _ _ _ E) in H.
    destruct data as [| d l].
    + rewrite getitem_nil in H. injection H as <-. left; repeat split.
    + rewrite getitem_minus_one in H; discriminate H.
  - right. unfold sample in H. rewrite E, getitem_first in H. cbn [bind] in H.
    destruct (float_cases (text e)) as [[x Hx] | [Hx | Hx]]; rewrite Hx in H;
      cbn [bind try_except_IndexError] in H; try discriminate H;
      injection H as <-; (split; [auto | exists e, es; split; [reflexivity | exact Hx]]).
Qed.

Lemma sample_loop_Raise (var : string) (tps : list Element) (acc : list Q) (err : exn) :
  for_ tps acc (sample var) = Raise err ->
  (err = IndexError /\ acc = []
   /\ exists trkpt rest, tps = trkpt :: rest /\ xpath trkpt ("./ns:" ++ var) = [])
  \/ ((err = TypeError \/ err = ValueError)
      /\ exists trkpt e es, In trkpt tps /\ xpath trkpt ("./ns:" ++ var) = e :: es
                            /\ float (text e) = Raise err).
Proof.
  revert acc; induction tps as [| tp tps IH]; intros acc H; simpl in H.
  - discriminate H.
  - destruct (sample var acc tp) as [acc1 | err1] eqn:S1; cbn [bind] in H.
    + destruct (sample_Ok _ _ _ S1) as [x [-> _]].
      destruct (IH _ H) as [[_ [Hnil _]] | [Hc [t [e [es [Hin Hx]]]]]].
      * destruct acc; discriminate Hnil.
      * right. split; [exact Hc |]. exists t, e, es. split; [right; exact Hin | exact Hx].
    + injection H as ->.
      destruct (sample_Raise _ _ _ S1) as [[-> [-> Hm]] | [Hc [e [es [He Hf]]]]].
      * left. repeat split. exists tp, tps; split; [reflexivity | exact Hm].
      * right. split; [exact Hc |]. exists tp, e, es. split; [left; reflexivity |].
        split; assumption.
Qed.

(** X15.  The shared extraction raises nothing but [IndexError],
    [TypeError] and [ValueError]: [IndexError] only when the first
    trackpoint lacks the field, the other two only as [float] raises them
    on the text of a trackpoint's first match. *)
Theorem Measure_get_data_errors (root : Element) (var : string) (err : exn) :
  Measure.get_data root var = Raise err ->
  (err = IndexError
   /\ exists trkpt rest,
        Trackpoints root = trkpt :: rest /\ xpath trkpt ("./ns:" ++ var) = [])
  \/ ((err = TypeError \/ err = ValueError)
      /\ exists trkpt e es,
           In trkpt (Trackpoints root) /\ xpath trkpt ("./ns:" ++ var) = e :: es
           /\ float (text e) = Raise err).
Proof.
  rewrite Measure_get_data_loop.
  destruct (0 <? _)%nat; [| discriminate].
  intros H.
  destruct (for_ (Trackpoints root) [] (sample var)) as [data | err1] eqn:L;
    cbn [bind] in H; [discriminate H |].
  injection H as ->.
  destruct (sample_loop_Raise _ _ _ L) as [[He [_ Hx]] | Hr].
  - left; split; assumption.
  - right; exact Hr.
Qed.

End Values.

Lemma Measure_value_of_first_match_witness :
  List.length [20; 20]%Q = List.length (Trackpoints Doc.distance_gap)
  /\ exists x, nth_error [20; 20]%Q 0%nat = Some x
               /\ float (B := Decimal.builtins) (Some "20"%string) = Ok x.
Proof.
  apply (@Measure_value_of_first_match Decimal.builtins Doc.distance_gap "DistanceMeters"
           [20; 20]%Q 0%nat
           (Doc.trackpoint [Doc.time "2017-03-05T09:00:00.000Z"; Doc.distance "20"])
           (Doc.distance "20") []).
  - vm_compute; reflexivity.
  - reflexivity.
  - reflexivity.
Defined.

Lemma Measure_get_data_errors_witness :
  (IndexError = IndexError
   /\ exists trkpt rest,
        Trackpoints Doc.distance_late = trkpt :: rest
        /\ xpath trkpt ("./ns:" ++ "DistanceMeters") = [])
  \/ ((IndexError = TypeError \/ IndexError = ValueError)
      /\ exists trkpt e es,
           In trkpt (Trackpoints Doc.distance_late)
           /\ xpath trkpt ("./ns:" ++ "DistanceMeters") = e :: es
           /\ float (B := Decimal.builtins) (text e) = Raise IndexError).
Proof.
  apply (@Measure_get_data_errors Decimal.builtins Doc.distance_late "DistanceMeters").
  vm_compute; reflexivity.
Defined.

(** ** Time: what is recorded, and what it raises *)

Section Timestamps.

Context {B : Builtins}.

Lemma stamp_records (raw raw' : list datetime) (trkpt : Element) :
  stamp raw trkpt = Ok raw' ->
  exists x, raw' = raw ++ [x]
    /\ exists e es, xpath trkpt "./ns:Time" = e :: es
         /\ datetime_strptime (str (text e)) "%Y-%m-%dT%H:%M:%S.%fZ" = Ok x.
Proof.
  intros H.
  destruct (xpath trkpt "./ns:Time") as [| e es] eqn:E.
  - rewrite (stamp_missing _ _ E) in H; discriminate H.
  - unfold stamp in H; rewrite E, getitem_first in H; cbn [bind] in H.
    destruct (datetime_strptime (str (text e)) "%Y-%m-%dT%H:%M:%S.%fZ") as [x | err] eqn:P.
    + cbn [bind try_except_IndexError] in H. injection H as <-.
      exists x; split; [reflexivity |]. exists e, es; split; [reflexivity | exact P].
    + unfold datetime_strptime in P. destruct (strptime _ _); [discriminate P |].
      injection P as <-. discriminate H.
Qed.

Lemma Time_init_loop (root : Element) (tm : Time.t) :
  Time.__init__ root = Ok tm ->
  exists r0 rest,
    for_ (Trackpoints root) [] stamp = Ok (r0 :: rest)
    /\ tm = Time.mk (Some (map (fun x => (x - r0)%Z) (r0 :: rest)))
                    (AbsTime.__init__ (r0 :: rest)).
Proof.
  unfold Time.__init__; rewrite Time_get_data_loop.
  destruct (0 <? _)%nat eqn:G; [| discriminate].
  intros H. apply bind_Ok in H; destruct H as [r [H E]].
  apply bind_Ok in H; destruct H as [raw [Hraw H]].
  pose proof (stamp_loop _ _ Hraw) as [L _]; simpl in L.
  apply (findall_nonempty root "Time") in G.
  destruct raw as [| r0 rest].
  - destruct (Trackpoints root); [congruence | discriminate L].
  - rewrite (comprehension_pure _ (fun x => (x - r0)%Z)) in H
      by (intros x; rewrite getitem_first; reflexivity).
    simpl in H. injection H as <-. injection E as <-.
    exists r0, rest; split; [exact Hraw | reflexivity].
Qed.

(** X16.  A constructed Time holds, for every trackpoint, the timestamp
    parsed from the text of its first Time element, and beside it that
    timestamp minus the first one: the elapsed series starts at zero. *)
Theorem Time_elapsed_since_first (root : Element) (tm : Time.t) :
  Time.__init__ root = Ok tm ->
  exists raw el r0,
    Measure.data (Time.absolute tm) = Some raw /\ Time.data tm = Some el
    /\ List.length raw = List.length (Trackpoints root)
    /\ List.length el = List.length (Trackpoints root)
    /\ nth_error raw 0 = Some r0 /\ nth_error el 0 = Some 0%Z
    /\ forall (k : nat) (trkpt : Element),
         nth_error (Trackpoints root) k = Some trkpt ->
         exists e es a,
           xpath trkpt "./ns:Time" = e :: es
           /\ datetime_strptime (str (text e)) "%Y-%m-%dT%H:%M:%S.%fZ" = Ok a
           /\ nth_error raw k = Some a /\ nth_error el k = Some (a - r0)%Z.
Proof.
  intros H. destruct (Time_init_loop _ H) as [r0 [rest [Hl ->]]].
  pose proof (stamp_loop _ _ Hl) as [L _]; simpl in L.
  exists (r0 :: rest), (map (fun x => (x - r0)%Z) (r0 :: rest)), r0.
  split; [reflexivity |]. split; [reflexivity |]. split; [exact L |].
  split; [rewrite length_map; exact L |]. split; [reflexivity |].
  split; [simpl; rewrite Z.sub_diag; reflexivity |].
  intros k trkpt Hk.
  destruct (@recording_loop _ stamp
              (fun trkpt x => exists e es, xpath trkpt "./ns:Time" = e :: es
                 /\ datetime_strptime (str (text e)) "%Y-%m-%dT%H:%M:%S.%fZ" = Ok x)
              stamp_records _ _ _ Hl _ _ Hk) as [a [Ha [e [es [He Hp]]]]].
  simpl in Ha. exists e, es, a. split; [exact He |]. split; [exact Hp |].
  split; [exact Ha |]. exact (map_nth_error (fun x => (x - r0)%Z) _ _ Ha).
Qed.

(** X17.  On a constructed Time, [start] and [finish] are the first and
    the last raw timestamp, the same values as [absolute.start] and
    [absolute.finish]. *)
Theorem Time_start_finish (root : Element) (tm : Time.t) :
  Time.__init__ root = Ok tm ->
  exists raw s f,
    Measure.data (Time.absolute tm) = Some raw
    /\ nth_error raw 0 = Some s /\ nth_error raw (List.length raw - 1) = Some f
    /\ Time.start tm = Ok (Some s) /\ AbsTime.start (Time.absolute tm) = Ok (Some s)
    /\ Time.finish tm = Ok (Some f) /\ AbsTime.finish (Time.absolute tm) = Ok (Some f).
Proof.
  intros H. destruct (Time_init_Ok _ H) as [r0 [rest [-> _]]].
  exists (r0 :: rest), r0, (last rest r0).
  unfold Time.start, Time.finish, AbsTime.start, AbsTime.finish, AbsTime.__init__,
    Measure.__getitem__.
  cbn [Time.data Time.absolute Measure.data map].
  unfold datetime, timedelta in *.
  rewrite !getitem_first, !getitem_minus_one.
  split; [reflexivity |]. split; [reflexivity |]. split.
  - cbn [List.length Nat.sub]. rewrite Nat.sub_0_r. apply nth_error_last.
  - repeat split; reflexivity.
Qed.

Lemma stamp_Raise (raw : list datetime) (trkpt : Element) (err : exn) :
  stamp raw trkpt = Raise err ->
  (err = UnboundLocalError /\ xpath trkpt "./ns:Time" = [])
  \/ (err = ValueError
      /\ exists e es, xpath trkpt "./ns:Time" = e :: es
           /\ strptime (str (text e)) "%Y-%m-%dT%H:%M:%S.%fZ" = None).
Proof.
  intros H.
  destruct (xpath trkpt "./ns:Time") as [| e es] eqn:E.
  - rewrite (stamp_missing _ _ E) in H. injection H as <-. left; split; reflexivity.
  - right. unfold stamp in H; rewrite E, getitem_first in H; cbn [bind] in H.
    unfold datetime_strptime in H.
    destruct (strptime (str (text e)) "%Y-%m-%dT%H:%M:%S.%fZ") as [x |] eqn:P.
    + discriminate H.
    + cbn [bind try_except_IndexError] in H. injection H as <-.
      split; [reflexivity |]. exists e, es; split; [reflexivity | exact P].
Qed.

Lemma stamp_loop_Raise (tps : list Element) (acc : list datetime) (err : exn) :
  for_ tps acc stamp = Raise err ->
  (err = UnboundLocalError
   /\ exists trkpt, In trkpt tps /\ xpath trkpt "./ns:Time" = [])
  \/ (err = ValueError
      /\ exists trkpt e es, In trkpt tps /\ xpath trkpt "./ns:Time" = e :: es
           /\ strptime (str (text e)) "%Y-%m-%dT%H:%M:%S.%fZ" = None).
Proof.
  revert acc; induction tps as [| tp tps IH]; intros acc H; simpl in H.
  - discriminate H.
  - destruct (stamp acc tp) as [acc1 | err1] eqn:S1; cbn [bind] in H.
    + destruct (IH _ H) as [[He [t [Hin Hm]]] | [He [t [e [es [Hin Hx]]]]]].
      * left. split; [exact He |]. exists t; split; [right; exact Hin | exact Hm].
      * right. split; [exact He |]. exists t, e, es; split; [right; exact Hin | exact Hx].
    + injection H as ->.
      destruct (stamp_Raise _ _ S1) as [[He Hm] | [He [e [es Hx]]]].
      * left. split; [exact He |]. exists tp; split; [left; reflexivity | exact Hm].
      * right. split; [exact He |]. exists tp, e, es; split; [left; reflexivity | exact Hx].
Qed.

(** X18.  Constructing Time raises nothing but [TypeError],
    [UnboundLocalError] and [ValueError]: the first when no trackpoint has
    a Time element, the second only when some trackpoint lacks one, the
    third only when [strptime] rejects a trackpoint's timestamp.  It never
    raises [IndexError]. *)
Theorem Time_init_errors (root : Element) (err : exn) :
  Time.__init__ root = Raise err ->
  (err = TypeError /\ findall root "./ns:Lap/ns:Track/ns:Trackpoint/ns:Time" = [])
  \/ (err = UnboundLocalError
      /\ exists trkpt, In trkpt (Trackpoints root) /\ xpath trkpt "./ns:Time" = [])
  \/ (err = ValueError
      /\ exists trkpt e es,
           In trkpt (Trackpoints root) /\ xpath trkpt "./ns:Time" = e :: es
           /\ strptime (str (text e)) "%Y-%m-%dT%H:%M:%S.%fZ" = None).
Proof.
  unfold Time.__init__. rewrite Time_get_data_loop.
  destruct (findall root "./ns:Lap/ns:Track/ns:Trackpoint/ns:Time") as [| e0 es0] eqn:F.
  - cbn. intros H; injection H as <-. left; split; reflexivity.
  - cbn [List.length Nat.ltb Nat.leb].
    destruct (for_ (Trackpoints root) [] stamp) as [raw | err1] eqn:L; cbn [bind].
    + destruct raw as [| r0 rest].
      * cbn. discriminate.
      * rewrite (comprehension_pure _ (fun x => (x - r0)%Z))
          by (intros x; rewrite getitem_first; reflexivity).
        cbn. discriminate.
    + intros H; injection H as ->. right. exact (stamp_loop_Raise _ _ L).
Qed.

End Timestamps.

Lemma Time_elapsed_since_first_witness :
  exists raw el r0,
    Measure.data (Time.absolute Doc.two_samples_time) = Some raw
    /\ Time.data Doc.two_samples_time = Some el
    /\ List.length raw = List.length (Trackpoints Doc.two_samples)
    /\ List.length el = List.length (Trackpoints Doc.two_samples)
    /\ nth_error raw 0 = Some r0 /\ nth_error el 0 = Some 0%Z
    /\ forall (k : nat) (trkpt : Element),
         nth_error (Trackpoints Doc.two_samples) k = Some trkpt ->
         exists e es a,
           xpath trkpt "./ns:Time" = e :: es
           /\ datetime_strptime (B := Decimal.builtins) (str (text e))
                "%Y-%m-%dT%H:%M:%S.%fZ" = Ok a
           /\ nth_error raw k = Some a /\ nth_error el k = Some (a - r0)%Z.
Proof.
  apply (@Time_elapsed_since_first Decimal.builtins Doc.two_samples Doc.two_samples_time).
  vm_compute; reflexivity.
Defined.

Lemma Time_start_finish_witness :
  exists raw s f,
    Measure.data (Time.absolute Doc.two_samples_time) = Some raw
    /\ nth_error raw 0 = Some s /\ nth_error raw (List.length raw - 1) = Some f
    /\ Time.start Doc.two_samples_time = Ok (Some s)
    /\ AbsTime.start (Time.absolute Doc.two_samples_time) = Ok (Some s)
    /\ Time.finish Doc.two_samples_time = Ok (Some f)
    /\ AbsTime.finish (Time.absolute Doc.two_samples_time) = Ok (Some f).
Proof.
  apply (@Time_start_finish Decimal.builtins Doc.two_samples Doc.two_samples_time).
  vm_compute; reflexivity.
Defined.

Lemma Time_init_errors_witness :
  (UnboundLocalError = TypeError
   /\ findall Doc.time_gap "./ns:Lap/ns:Track/ns:Trackpoint/ns:Time" = [])
  \/ (UnboundLocalError = UnboundLocalError
      /\ exists trkpt, In trkpt (Trackpoints Doc.time_gap) /\ xpath trkpt "./ns:Time" = [])
  \/ (UnboundLocalError = ValueError
      /\ exists trkpt e es,
           In trkpt (Trackpoints Doc.time_gap) /\ xpath trkpt "./ns:Time" = e :: es
           /\ strptime (Builtins := Decimal.builtins) (str (text e))
                "%Y-%m-%dT%H:%M:%S.%fZ" = None).
Proof.
  apply (@Time_init_errors Decimal.builtins Doc.time_gap UnboundLocalError).
  vm_compute; reflexivity.
Defined.

(** ** The statistics of HeartRate, Speed, Cadence and Altitude *)

Lemma count_positive (x : Q) (l : list Q) :
  (0 < inject_Z (Z.of_nat (List.length (x :: l))))%Q.
Proof.
  change 0%Q with (inject_Z 0). rewrite <- Zlt_Qlt. simpl List.length. lia.
Qed.

(** X19.  On a channel with at least one value, [min] and [max] return
    values of the channel that bound every value, so that the one of [min]
    is not larger than the one of [max]; and [average] returns a value:
    its division by the number of values cannot fail. *)
Theorem Stats_bounds (self : Measure.t Q) (l : list Q) :
  Measure.data self = Some l -> l <> [] ->
  exists mn mx av,
    Stats.min self = Ok (Some mn) /\ Stats.max self = Ok (Some mx)
    /\ Stats.average self = Ok (Some av)
    /\ In mn l /\ In mx l
    /\ (forall x, In x l -> (mn <= x)%Q /\ (x <= mx)%Q)
    /\ (mn <= mx)%Q.
Proof.
  intros Hd Hne. destruct l as [| x l]; [congruence |].
  destruct (py_min_spec Hne) as [mn [Emn [Imn Hmn]]].
  destruct (py_max_spec Hne) as [mx [Emx [Imx Hmx]]].
  pose proof (count_positive x l) as Hn.
  assert (Hnz : ~ (inject_Z (Z.of_nat (List.length (x :: l))) == 0)%Q)
    by (intros E; rewrite E in Hn; exact (Qlt_irrefl _ Hn)).
  exists mn, mx, (py_sum (x :: l) / inject_Z (Z.of_nat (List.length (x :: l))))%Q.
  unfold Stats.min, Stats.max, Stats.average. rewrite Hd, Emn, Emx.
  split; [reflexivity |]. split; [reflexivity |]. split.
  - unfold truediv.
    destruct (Qeq_bool (inject_Z (Z.of_nat (List.length (x :: l)))) 0) eqn:E.
    + apply Qeq_bool_iff in E. contradiction.
    + reflexivity.
  - split; [exact Imn |]. split; [exact Imx |]. split.
    + intros y Hy; split; [apply Hmn | apply Hmx]; exact Hy.
    + apply Hmn, Imx.
Qed.

Lemma Stats_bounds_witness :
  exists mn mx av,
    HeartRate.min (Measure.mk (Some [120; 150; 135]%Q)) = Ok (Some mn)
    /\ HeartRate.max (Measure.mk (Some [120; 150; 135]%Q)) = Ok (Some mx)
    /\ HeartRate.average (Measure.mk (Some [120; 150; 135]%Q)) = Ok (Some av)
    /\ In mn [120; 150; 135]%Q /\ In mx [120; 150; 135]%Q
    /\ (forall x, In x [120; 150; 135]%Q -> (mn <= x)%Q /\ (x <= mx)%Q)
    /\ (mn <= mx)%Q.
Proof.
  apply (@Stats_bounds (Measure.mk (Some [120; 150; 135]%Q)) [120; 150; 135]%Q).
  - reflexivity.
  - discriminate.
Defined.

(** ** Location: the two projections *)

Lemma combine_fst_snd {A C : Type} (l : list (A * C)) :
  combine (map fst l) (map snd l) = l.
Proof.
  induction l as [| [a c] l IH]; simpl; [reflexivity | rewrite IH; reflexivity].
Qed.

(** X20.  On a present Location, [latitude] and [longitude] are as long as
    the data and pair up, index by index, to the data again; [start] and
    [finish] are its first and last pair. *)
Theorem Location_projections (self : Location.t) (l : list (Q * Q)) :
  Measure.data self = Some l -> l <> [] ->
  exists lat lon s f,
    Location.latitude self = Ok (Some lat) /\ Location.longitude self = Ok (Some lon)
    /\ List.length lat = List.length l /\ List.length lon = List.length l
    /\ combine lat lon = l
    /\ Location.start self = Ok (Some s) /\ nth_error l 0 = Some s
    /\ Location.finish self = Ok (Some f) /\ nth_error l (List.length l - 1) = Some f.
Proof.
  intros Hd Hne. destruct l as [| x l]; [congruence |].
  exists (map fst (x :: l)), (map snd (x :: l)), x, (last l x).
  unfold Location.latitude, Location.longitude, Location.start, Location.finish.
  rewrite Hd, getitem_first, getitem_minus_one.
  split; [reflexivity |]. split; [reflexivity |].
  split; [apply length_map |]. split; [apply length_map |].
  split; [apply combine_fst_snd |].
  split; [reflexivity |]. split; [reflexivity |]. split; [reflexivity |].
  cbn [List.length Nat.sub]. rewrite Nat.sub_0_r. apply nth_error_last.
Qed.

Lemma Location_projections_witness :
  exists lat lon s f,
    Location.latitude (Measure.mk (Some [(1, 2); (3, 4)]%Q)) = Ok (Some lat)
    /\ Location.longitude (Measure.mk (Some [(1, 2); (3, 4)]%Q)) = Ok (Some lon)
    /\ List.length lat = 2%nat /\ List.length lon = 2%nat
    /\ combine lat lon = [(1, 2); (3, 4)]%Q
    /\ Location.start (Measure.mk (Some [(1, 2); (3, 4)]%Q)) = Ok (Some s)
    /\ nth_error [(1, 2); (3, 4)]%Q 0 = Some s
    /\ Location.finish (Measure.mk (Some [(1, 2); (3, 4)]%Q)) = Ok (Some f)
    /\ nth_error [(1, 2); (3, 4)]%Q 1 = Some f.
Proof.
  apply (@Location_projections (Measure.mk (Some [(1, 2); (3, 4)]%Q)) [(1, 2); (3, 4)]%Q).
  - reflexivity.
  - discriminate.
Defined.

Lemma last_cons_same {A : Type} (l : list A) (b p : A) : last (b :: l) p = last l b.
Proof.
  destruct l as [| c l]; [reflexivity |].
  change (last (c :: l) p = last (c :: l) b). apply last_cons_default.
Qed.

(** ** Pace.get_data on any two channels *)

Lemma pace_loop_nonzero (t0 : timedelta) (l : list (timedelta * Q)) (acc pl : list Q) :
  for_ l acc (pace_step t0) = Ok pl ->
  forall td, In td l -> ~ (snd td == 0)%Q.
Proof.
  revert acc; induction l as [| [t d] l IH]; intros acc H td Hin; [destruct Hin |].
  simpl in H. destruct (Qeq_bool (d / 1000) 0) eqn:E; [discriminate H |].
  destruct Hin as [<- | Hin].
  - simpl. intros Hz. rewrite (zero_divisor Hz) in E. discriminate E.
  - exact (IH _ H td Hin).
Qed.

(** X22.  [Pace.get_data] pairs the two series index by index up to the
    shorter one: a present result has min(len(time), len(distance)) values,
    and with an empty series on either side the result is absent. *)
Theorem Pace_get_data_shorter (tm : Time.t) (ds : Distance.t)
        (tl : list timedelta) (dl : list Q) :
  Time.data tm = Some tl -> Measure.data ds = Some dl ->
  ((tl = [] \/ dl = []) -> Pace.get_data tm ds = Ok None)
  /\ forall pl, Pace.get_data tm ds = Ok (Some pl) ->
                List.length pl = Nat.min (List.length tl) (List.length dl).
Proof.
  intros Ht Hd.
  destruct tl as [| t0 ts].
  - unfold Pace.get_data. rewrite Ht. cbn. split; [reflexivity | discriminate].
  - destruct dl as [| d0 dl].
    + unfold Pace.get_data. rewrite Ht, Hd. cbn. split; [reflexivity | discriminate].
    + rewrite (Pace_get_data_present _ _ Ht Hd).
      split; [intros [E | E]; discriminate E |].
      intros pl H. apply bind_Ok in H; destruct H as [pace [H E]].
      injection E as ->. apply pace_loop_Ok in H. rewrite H.
      cbn [app]. rewrite length_map, length_combine. reflexivity.
Qed.

Lemma Pace_get_data_shorter_witness :
  ((([0; 10000000; 20000000]%Z = [] \/ [20; 50]%Q = []) ->
    Pace.get_data (Time.mk (Some [0; 10000000; 20000000]%Z) (AbsTime.__init__ []))
                  Doc.two_samples_distance = Ok None)
   /\ forall pl,
        Pace.get_data (Time.mk (Some [0; 10000000; 20000000]%Z) (AbsTime.__init__ []))
                      Doc.two_samples_distance = Ok (Some pl) ->
        List.length pl = Nat.min 3 2)
  /\ exists pl,
       Pace.get_data (Time.mk (Some [0; 10000000; 20000000]%Z) (AbsTime.__init__ []))
                     Doc.two_samples_distance = Ok (Some pl).
Proof.
  split.
  - apply (@Pace_get_data_shorter
             (Time.mk (Some [0; 10000000; 20000000]%Z) (AbsTime.__init__ []))
             Doc.two_samples_distance [0; 10000000; 20000000]%Z [20; 50]%Q);
      reflexivity.
  - eexists. reflexivity.
Defined.

(** ** Pace of a parsed document *)

Section PaceOfDocument.

Context {B : Builtins}.

Lemma Pace_of_document (root : Element) (tm : Time.t) (ds : Distance.t) (p : Pace.t) :
  Time.__init__ root = Ok tm ->
  Distance.__init__ root = Ok ds ->
  Pace.__init__ tm ds = Ok p ->
  exists r0 rest d0 dl,
    tm = Time.mk (Some ((r0 - r0)%Z :: map (fun x => (x - r0)%Z) rest))
                 (AbsTime.__init__ (r0 :: rest))
    /\ Measure.data ds = Some (d0 :: dl)
    /\ List.length (d0 :: dl) = List.length (Trackpoints root)
    /\ List.length (r0 :: rest) = List.length (Trackpoints root)
    /\ Measure.data p
       = Some (map (fun td => pace_at (r0 - r0)%Z (fst td) (snd td))
                   (combine ((r0 - r0)%Z :: map (fun x => (x - r0)%Z) rest) (d0 :: dl)))
    /\ forall d, In d (d0 :: dl) -> ~ (d == 0)%Q.
Proof.
  intros Ht Hd Hp.
  destruct (Time_init_Ok _ Ht) as [r0 [rest [-> [Lt _]]]].
  apply Distance_init_Ok in Hd.
  destruct (Measure.data ds) as [dl |] eqn:Hdl.
  - apply Measure_get_data_Some in Hd; destruct Hd as [_ [Ld Hne]].
    destruct dl as [| d0 dl]; [congruence |].
    exists r0, rest, d0, dl.
    split; [reflexivity |]. split; [reflexivity |]. split; [exact Ld |].
    split; [exact Lt |]. split.
    + exact (@Pace_init_Ok _ ds p (r0 - r0)%Z (map (fun x => (x - r0)%Z) rest)
               d0 dl Hp eq_refl Hdl).
    + unfold Pace.__init__ in Hp.
      rewrite (@Pace_get_data_present
                 (Time.mk (Some (map (fun x => (x - r0)%Z) (r0 :: rest)))
                          (AbsTime.__init__ (r0 :: rest)))
                 ds (r0 - r0)%Z (map (fun x => (x - r0)%Z) rest) d0 dl eq_refl Hdl) in Hp.
      apply bind_Ok in Hp; destruct Hp as [data [Hp _]].
      apply bind_Ok in Hp; destruct Hp as [pl [Hp _]].
      intros d Hin.
      destruct (in_combine_r_ex ((r0 - r0)%Z :: map (fun x => (x - r0)%Z) rest)
                  (d0 :: dl) d) as [t Hin'].
      * simpl List.length in *. rewrite length_map. congruence.
      * exact Hin.
      * exact (pace_loop_nonzero _ _ _ Hp (t, d) Hin').
  - exfalso. unfold Pace.__init__ in Hp.
    erewrite Pace_get_data_no_distance in Hp; [discriminate Hp | reflexivity | exact Hdl].
Qed.

(** X23.  The pace of the first sample of a parsed document is zero (no
    time has elapsed), so [Pace.min], the largest pace, is never
    negative. *)
Theorem Pace_starts_at_zero (root : Element) (tm : Time.t) (ds : Distance.t) (p : Pace.t) :
  Time.__init__ root = Ok tm ->
  Distance.__init__ root = Ok ds ->
  Pace.__init__ tm ds = Ok p ->
  exists q m,
    Measure.__getitem__ (Measure.data p) 0 = Ok q /\ (q == 0)%Q
    /\ Pace.min p = Ok (Some m) /\ (0 <= m)%Q.
Proof.
  intros Ht Hd Hp.
  destruct (Pace_of_document _ Ht Hd Hp) as [r0 [rest [d0 [dl [_ [_ [_ [_ [E _]]]]]]]]].
  cbn [combine map fst snd] in E.
  assert (Hq : (pace_at (r0 - r0)%Z (r0 - r0)%Z d0 == 0)%Q).
  { unfold pace_at. rewrite !Z.sub_diag.
    change (inject_Z (timedelta_seconds 0%Z)) with 0%Q. unfold Qdiv. ring. }
  unfold Pace.min, Measure.__getitem__. rewrite E, getitem_first.
  match goal with
  | |- context [py_max ?l] =>
      destruct (@py_max_spec l ltac:(discriminate)) as [m [Em [_ Hm]]]
  end.
  eexists; exists m. split; [reflexivity |]. split; [exact Hq |].
  rewrite Em. split; [reflexivity |].
  rewrite <- Hq. apply Hm. left; reflexivity.
Qed.

(** X24.  [Pace.seconds] is the pace in seconds per kilometre, computed
    from the pace in minutes: it is as long as Time, and at an index whose
    elapsed time is a whole number of seconds under one day it is
    ((elapsed seconds / 60) / (distance / 1000)) * 60, the operations in
    the order the program performs them. *)
Theorem Pace_seconds_per_km (root : Element) (tm : Time.t) (ds : Distance.t) (p : Pace.t) :
  Time.__init__ root = Ok tm ->
  Distance.__init__ root = Ok ds ->
  Pace.__init__ tm ds = Ok p ->
  exists tl dl sl,
    Time.data tm = Some tl /\ Measure.data ds = Some dl
    /\ Pace.seconds p = Ok (Some sl)
    /\ List.length sl = List.length tl
    /\ forall (i : nat) (t : timedelta) (d : Q),
         nth_error tl i = Some t -> nth_error dl i = Some d ->
         whole_seconds_within_a_day t ->
         exists s, nth_error sl i = Some s
                   /\ (s == ((elapsedSeconds t / 60) / (d / 1000)) * 60)%Q.
Proof.
  intros Ht Hd Hp.
  destruct (Pace_of_document _ Ht Hd Hp)
    as [r0 [rest [d0 [dl [-> [Hdl [Ld [Lt [E Hnz]]]]]]]]].
  exists ((r0 - r0)%Z :: map (fun x => (x - r0)%Z) rest), (d0 :: dl).
  unfold Pace.seconds. rewrite E. cbn [combine map fst snd].
  eexists. split; [reflexivity |]. split; [exact Hdl |]. split; [reflexivity |].
  unfold timedelta in *.
  split.
  - cbn [List.length]. rewrite !length_map, length_combine, length_map.
    simpl List.length in Ld, Lt. assert (List.length rest = List.length dl) by lia.
    lia.
  - intros i t d Hi Hj Hw.
    exists (pace_at (r0 - r0)%Z t d * 60)%Q. split.
    + change ((pace_at (r0 - r0)%Z (r0 - r0)%Z d0 * 60)%Q
              :: map (fun x : Q => (x * 60)%Q)
                   (map (fun td : Z * Q => pace_at (r0 - r0)%Z (fst td) (snd td))
                      (combine (map (fun x : Z => (x - r0)%Z) rest) dl)))
        with (map (fun x : Q => (x * 60)%Q)
                (map (fun td : Z * Q => pace_at (r0 - r0)%Z (fst td) (snd td))
                   (combine ((r0 - r0)%Z :: map (fun x : Z => (x - r0)%Z) rest)
                            (d0 :: dl)))).
      apply (map_nth_error (fun x : Q => (x * 60)%Q)).
      exact (map_nth_error (fun td : Z * Q => pace_at (r0 - r0)%Z (fst td) (snd td)) _ _
               (nth_error_combine _ _ _ Hi Hj)).
    + unfold pace_at. rewrite Z.sub_diag, Z.sub_0_r, (whole_seconds Hw).
      reflexivity.
Qed.

End PaceOfDocument.

Lemma Pace_starts_at_zero_witness :
  exists q m,
    Measure.__getitem__
      (Measure.data (Measure.mk (Some [pace_at 0%Z 0%Z 20; pace_at 0%Z 10000000%Z 50]))) 0
    = Ok q
    /\ (q == 0)%Q
    /\ Pace.min (Measure.mk (Some [pace_at 0%Z 0%Z 20; pace_at 0%Z 10000000%Z 50]))
       = Ok (Some m)
    /\ (0 <= m)%Q.
Proof.
  apply (@Pace_starts_at_zero Decimal.builtins Doc.two_samples Doc.two_samples_time
           Doc.two_samples_distance).
  - vm_compute; reflexivity.
  - vm_compute; reflexivity.
  - reflexivity.
Defined.

Lemma Pace_seconds_per_km_witness :
  exists s,
    (r <- Pace.seconds (Measure.mk (Some [pace_at 0%Z 0%Z 20; pace_at 0%Z 10000000%Z 50])) ;;
     Measure.__getitem__ r 1) = Ok s
    /\ whole_seconds_within_a_day 10000000%Z
    /\ (s == ((elapsedSeconds 10000000%Z / 60) / (50 / 1000)) * 60)%Q.
Proof.
  destruct (@Pace_seconds_per_km Decimal.builtins Doc.two_samples Doc.two_samples_time
              Doc.two_samples_distance
              (Measure.mk (Some [pace_at 0%Z 0%Z 20; pace_at 0%Z 10000000%Z 50])))
    as [tl [dl [sl [Htl [Hdl [Hsl [_ H]]]]]]].
  - vm_compute; reflexivity.
  - vm_compute; reflexivity.
  - reflexivity.
  - injection Htl as <-. injection Hdl as <-.
    assert (Hw : whole_seconds_within_a_day 10000000%Z)
      by (split; [split; [discriminate | reflexivity] | reflexivity]).
    destruct (H 1%nat 10000000%Z 50%Q eq_refl eq_refl Hw) as [s [Hs Heq]].
    exists s. split; [| split; [exact Hw | exact Heq]].
    rewrite Hsl. cbn [bind]. apply (getitem_nth _ 1%nat). exact Hs.
Defined.

(** ** Channels of one document are aligned *)

Lemma Trackpoints_by_track (root : Element) :
  Trackpoints root = trackpoints_by_track root.
Proof.
  unfold Trackpoints, trackpoints_by_track.
  apply flat_map_ext. intros lap. unfold xpath.
  change (steps "./ns:Track/ns:Trackpoint")
    with (steps "./ns:Track" ++ ["ns:Trackpoint"]%string).
  rewrite select_app. reflexivity.
Qed.

Section Alignment.

Context {B : Builtins}.

Lemma Measure_get_data_aligned (root : Element) (var : string) (o : option (list Q)) :
  Measure.get_data root var = Ok o ->
  absent_or_aligned (List.length (Trackpoints root)) o.
Proof.
  intros H. destruct o as [data |]; [| left; reflexivity].
  right. exists data. split; [reflexivity |].
  apply Measure_get_data_Some in H. destruct H as [_ [L _]]. exact L.
Qed.

Lemma Location_get_data_aligned (root : Element) (o : option (list (Q * Q))) :
  Location.get_data root = Ok o ->
  absent_or_aligned (List.length (Trackpoints root)) o.
Proof.
  intros H. destruct o as [data |]; [| left; reflexivity].
  right. exists data. split; [reflexivity |].
  apply Location_get_data_Some in H.
  apply (@loop_length _ position (fun trkpt => xpath trkpt "./ns:Position" = [])
           position_Ok) in H.
  exact H.
Qed.

(** X9.  Channels built from one document are aligned: Time, every present
    channel of the shared extraction and a present Location have one value
    per trackpoint, the trackpoints of every track of every lap taken in
    document order as one series. *)
Theorem channels_aligned (root : Element) (tm : Time.t) (var : string)
        (data : list Q) (loc : list (Q * Q)) :
  Time.__init__ root = Ok tm ->
  Measure.get_data root var = Ok (Some data) ->
  Location.get_data root = Ok (Some loc) ->
  exists tl,
    Time.data tm = Some tl
    /\ List.length tl = List.length (trackpoints_by_track root)
    /\ List.length data = List.length (trackpoints_by_track root)
    /\ List.length loc = List.length (trackpoints_by_track root).
Proof.
  intros Ht Hm Hl. rewrite <- Trackpoints_by_track.
  destruct (Time_init_Ok _ Ht) as [r0 [rest [-> [Lt _]]]].
  eexists. split; [reflexivity |].
  split; [rewrite length_map; exact Lt |]. split.
  - destruct (Measure_get_data_aligned _ _ Hm) as [E | [l [E L]]];
      [discriminate E | injection E as <-; exact L].
  - destruct (Location_get_data_aligned _ Hl) as [E | [l [E L]]];
      [discriminate E | injection E as <-; exact L].
Qed.

End Alignment.

Lemma channels_aligned_witness :
  exists tl,
    Time.data (Time.mk (Some [0; 10000000; 20000000]%Z)
                       (AbsTime.__init__
                          [1488704400000000; 1488704410000000; 1488704420000000]%Z))
    = Some tl
    /\ List.length tl = List.length (trackpoints_by_track Doc.full_run)
    /\ List.length [120; 120; 130]%Q = List.length (trackpoints_by_track Doc.full_run)
    /\ List.length [(1, 2); (1, 2); (3, 4)]%Q
       = List.length (trackpoints_by_track Doc.full_run).
Proof.
  apply (@channels_aligned Decimal.builtins Doc.full_run _ "HeartRateBpm/ns:Value").
  - vm_compute; reflexivity.
  - vm_compute; reflexivity.
  - vm_compute; reflexivity.
Defined.

(** ** TCXParser.get_root *)

Lemma getitem_first_Ok {A : Type} (l : list A) (x : A) :
  getitem l 0 = Ok x -> exists rest, l = x :: rest.
Proof.
  destruct l as [| y l]; intros H.
  - rewrite getitem_nil in H; discriminate H.
  - rewrite getitem_first in H. injection H as ->. exists l; reflexivity.
Qed.

Lemma getitem_first_Raise {A : Type} (l : list A) (err : exn) :
  getitem l 0 = Raise err -> err = IndexError /\ l = [].
Proof.
  destruct l as [| y l]; intros H.
  - rewrite getitem_nil in H. injection H as <-. split; reflexivity.
  - rewrite getitem_first in H; discriminate H.
Qed.

Lemma tree_xpath_root (tree : Element) :
  tree_xpath tree "/ns:TrainingCenterDatabase"
  = if String.eqb (tag tree) "ns:TrainingCenterDatabase" then [tree] else [].
Proof.
  unfold tree_xpath.
  change (steps "/ns:TrainingCenterDatabase") with ([""; "ns:TrainingCenterDatabase"]%string).
  cbn [String.eqb andb]. destruct (String.eqb (tag tree) _); reflexivity.
Qed.

(** X25.  What [get_root] returns: [None] only for a path whose extension
    is neither [.tcx] nor [.xml] (whatever the letter case); otherwise the
    first Activity under Activities of a document whose root element is
    the training database.  With a recognised extension it never returns
    [None]. *)
Theorem get_root_first_activity (fs : FileSystem) (tcx_file : string) (a : option Element) :
  TCXParser.get_root fs (Some tcx_file) = Ok a ->
  (a = None
   /\ endswith (lower tcx_file) ".tcx" || endswith (lower tcx_file) ".xml" = false)
  \/ exists tree act rest,
       endswith (lower tcx_file) ".tcx" || endswith (lower tcx_file) ".xml" = true
       /\ fs tcx_file = Some (Xml tree)
       /\ tag tree = "ns:TrainingCenterDatabase"%string
       /\ xpath tree "./ns:Activities/ns:Activity" = act :: rest
       /\ a = Some act.
Proof.
  unfold TCXParser.get_root.
  destruct (endswith (lower tcx_file) ".tcx" || endswith (lower tcx_file) ".xml") eqn:E.
  - intros H. right.
    apply bind_Ok in H; destruct H as [f [Hf H]].
    apply bind_Ok in H; destruct H as [tree [Ht H]].
    apply bind_Ok in H; destruct H as [r [Hr H]].
    apply bind_Ok in H; destruct H as [act [Ha H]]. injection H as <-.
    unfold open in Hf. destruct (fs tcx_file) as [f' |] eqn:F; [| discriminate Hf].
    injection Hf as ->. destruct f as [tree' |]; [| discriminate Ht].
    injection Ht as ->.
    rewrite tree_xpath_root in Hr.
    destruct (String.eqb (tag tree) "ns:TrainingCenterDatabase") eqn:T.
    + rewrite getitem_first in Hr. injection Hr as <-.
      apply getitem_first_Ok in Ha; destruct Ha as [rest Ha].
      exists tree, act, rest. split; [reflexivity |]. split; [reflexivity |].
      split; [apply String.eqb_eq, T |]. split; [exact Ha | reflexivity].
    + rewrite getitem_nil in Hr; discriminate Hr.
  - intros H; injection H as <-. left; split; reflexivity.
Qed.

Lemma get_root_first_activity_witness :
  (Some Doc.full_run = None
   /\ endswith (lower "run.tcx") ".tcx" || endswith (lower "run.tcx") ".xml" = false)
  \/ exists tree act rest,
       endswith (lower "run.tcx") ".tcx" || endswith (lower "run.tcx") ".xml" = true
       /\ Doc.full_run_files "run.tcx"%string = Some (Xml tree)
       /\ tag tree = "ns:TrainingCenterDatabase"%string
       /\ xpath tree "./ns:Activities/ns:Activity" = act :: rest
       /\ Some Doc.full_run = Some act.
Proof.
  apply (@get_root_first_activity Doc.full_run_files "run.tcx" (Some Doc.full_run)).
  vm_compute; reflexivity.
Defined.

(** X26.  Once the file is opened and parsed, the only error of
    [get_root] is [IndexError], and it is raised exactly when the root
    element is not the training database or holds no Activity under
    Activities. *)
Theorem get_root_IndexError (fs : FileSystem) (tcx_file : string) (tree : Element) :
  endswith (lower tcx_file) ".tcx" || endswith (lower tcx_file) ".xml" = true ->
  fs tcx_file = Some (Xml tree) ->
  ((tag tree <> "ns:TrainingCenterDatabase"%string
    \/ xpath tree "./ns:Activities/ns:Activity" = []) ->
   TCXParser.get_root fs (Some tcx_file) = Raise IndexError)
  /\ (forall err,
        TCXParser.get_root fs (Some tcx_file) = Raise err ->
        err = IndexError
        /\ (tag tree <> "ns:TrainingCenterDatabase"%string
            \/ xpath tree "./ns:Activities/ns:Activity" = [])).
Proof.
  intros E F. unfold TCXParser.get_root, open. rewrite E, F.
  cbn [bind etree_parse]. rewrite tree_xpath_root.
  destruct (String.eqb (tag tree) "ns:TrainingCenterDatabase") eqn:T.
  - rewrite getitem_first. cbn [bind]. split.
    + intros [Ht | Hx].
      * apply String.eqb_eq in T. contradiction.
      * rewrite Hx, getitem_nil. reflexivity.
    + intros err H.
      destruct (getitem (xpath tree "./ns:Activities/ns:Activity") 0) as [act | e] eqn:G;
        cbn [bind] in H; [discriminate H |].
      injection H as ->. apply getitem_first_Raise in G; destruct G as [-> G].
      split; [reflexivity | right; exact G].
  - rewrite getitem_nil. cbn [bind]. split; [reflexivity |].
    intros err H. injection H as <-. split; [reflexivity | left].
    intros Ht. apply String.eqb_neq in T. contradiction.
Qed.

Lemma get_root_IndexError_witness :
  TCXParser.get_root (Doc.single "run.tcx" (Xml Doc.gpx)) (Some "run.tcx"%string)
  = Raise IndexError
  /\ (forall err,
        TCXParser.get_root (Doc.single "run.tcx" (Xml Doc.gpx)) (Some "run.tcx"%string)
        = Raise err ->
        err = IndexError
        /\ (tag Doc.gpx <> "ns:TrainingCenterDatabase"%string
            \/ xpath Doc.gpx "./ns:Activities/ns:Activity" = [])).
Proof.
  destruct (@get_root_IndexError (Doc.single "run.tcx" (Xml Doc.gpx)) "run.tcx" Doc.gpx
              eq_refl eq_refl) as [H1 H2].
  split; [apply H1; left; discriminate | exact H2].
Defined.

Lemma append_middle (a b : string) : ((a ++ ".") ++ b = a ++ "." ++ b)%string.
Proof.
  induction a as [| c a IH]; simpl; [reflexivity | rewrite IH; reflexivity].
Qed.

Lemma str_add_Ok (s : string) (t : option string) (r : string) :
  str_add s t = Ok r -> exists s', t = Some s' /\ r = (s ++ s')%string.
Proof.
  destruct t as [s' |]; simpl; intros H; [| discriminate H].
  injection H as <-. exists s'; split; reflexivity.
Qed.

(** X10.  The device is read from the first Creator/Name and the first
    Creator/Version: the name's text as it is (possibly none) and the
    version written [v<major>.<minor>] from the texts of VersionMajor and
    VersionMinor, which must both have a text. *)
Theorem device_info_format (root : Element) (device : option string) (version : string) :
  TCXParser.get_device_info root = Ok (device, version) ->
  exists name names ver vers major majors minor minors a b,
    xpath root "./ns:Creator/ns:Name" = name :: names /\ device = text name
    /\ xpath root "./ns:Creator/ns:Version" = ver :: vers
    /\ xpath ver "./ns:VersionMajor" = major :: majors /\ text major = Some a
    /\ xpath ver "./ns:VersionMinor" = minor :: minors /\ text minor = Some b
    /\ version = ("v" ++ a ++ "." ++ b)%string.
Proof.
  unfold TCXParser.get_device_info. intros H.
  apply bind_Ok in H; destruct H as [name [Hn H]].
  apply bind_Ok in H; destruct H as [ver [Hv H]].
  apply bind_Ok in H; destruct H as [major [Hmj H]].
  apply bind_Ok in H; destruct H as [v [Ha H]].
  apply bind_Ok in H; destruct H as [minor [Hmn H]].
  apply bind_Ok in H; destruct H as [version' [Hb H]].
  injection H as <- <-.
  apply getitem_first_Ok in Hn; destruct Hn as [names Hn].
  apply getitem_first_Ok in Hv; destruct Hv as [vers Hv].
  apply getitem_first_Ok in Hmj; destruct Hmj as [majors Hmj].
  apply getitem_first_Ok in Hmn; destruct Hmn as [minors Hmn].
  apply str_add_Ok in Ha; destruct Ha as [a [Ta ->]].
  apply str_add_Ok in Hb; destruct Hb as [b [Tb ->]].
  exists name, names, ver, vers, major, majors, minor, minors, a, b.
  repeat (split; [assumption || reflexivity |]).
  change ("v" ++ a)%string with (String "v" a).
  cbn [String.append]. rewrite append_middle. reflexivity.
Qed.

Lemma device_info_format_witness :
  exists name names ver vers major majors minor minors a b,
    xpath Doc.full_run "./ns:Creator/ns:Name" = name :: names
    /\ Some "Forerunner"%string = text name
    /\ xpath Doc.full_run "./ns:Creator/ns:Version" = ver :: vers
    /\ xpath ver "./ns:VersionMajor" = major :: majors /\ text major = Some a
    /\ xpath ver "./ns:VersionMinor" = minor :: minors /\ text minor = Some b
    /\ "v3.10"%string = ("v" ++ a ++ "." ++ b)%string.
Proof.
  apply (@device_info_format Doc.full_run (Some "Forerunner"%string) "v3.10").
  vm_compute; reflexivity.
Defined.

(** ** What a parsed activity looks like *)

Section Parsed.

Context {B : Builtins}.

Lemma channel_init_aligned (root : Element) (var : string) (c : Measure.t Q) :
  (data <- Measure.get_data root var ;; Ok (Measure.mk data)) = Ok c ->
  absent_or_aligned (List.length (Trackpoints root)) (Measure.data c).
Proof.
  intros H. apply bind_Ok in H; destruct H as [data [H E]]. injection E as <-.
  exact (Measure_get_data_aligned _ _ H).
Qed.

Lemma Location_init_aligned (root : Element) (c : Location.t) :
  Location.__init__ root = Ok c ->
  absent_or_aligned (List.length (Trackpoints root)) (Measure.data c).
Proof.
  unfold Location.__init__. intros H.
  apply bind_Ok in H; destruct H as [data [H E]]. injection E as <-.
  exact (Location_get_data_aligned _ H).
Qed.

Lemma HeartRate_init_aligned (root : Element) (c : HeartRate.t) :
  HeartRate.__init__ root = Ok c ->
  absent_or_aligned (List.length (Trackpoints root)) (Measure.data c).
Proof. unfold HeartRate.__init__. cbv zeta. apply channel_init_aligned. Qed.

Lemma Speed_init_aligned (root : Element) (c : Speed.t) :
  Speed.__init__ root = Ok c ->
  absent_or_aligned (List.length (Trackpoints root)) (Measure.data c).
Proof. unfold Speed.__init__. cbv zeta. apply channel_init_aligned. Qed.

Lemma Cadence_init_aligned (root : Element) (c : Cadence.t) :
  Cadence.__init__ root = Ok c ->
  absent_or_aligned (List.length (Trackpoints root)) (Measure.data c).
Proof. unfold Cadence.__init__. cbv zeta. apply channel_init_aligned. Qed.

Lemma Altitude_init_aligned (root : Element) (c : Altitude.t) :
  Altitude.__init__ root = Ok c ->
  absent_or_aligned (List.length (Trackpoints root)) (Measure.data c).
Proof. unfold Altitude.__init__. cbv zeta. apply channel_init_aligned. Qed.

(** X27.  Every object the parser returns is either without any channel
    (no document was read) or complete: all nine attributes are set; Time,
    Distance and Pace are present, non-empty and equally long; no distance
    is zero; HeartRate, Speed, Cadence, Location and Altitude are each
    absent or as long as Time; and the device is what [get_device_info]
    reads. *)
Theorem TCXParser_init_Ok (fs : FileSystem) (tcx_file : option string) (obj : TCXParser.t) :
  TCXParser.__init__ fs tcx_file = Ok obj ->
  (obj = TCXParser.uninitialised /\ TCXParser.get_root fs tcx_file = Ok None)
  \/ exists root tm hr ds sp ca lo al pa dev tl dl pl,
       TCXParser.get_root fs tcx_file = Ok (Some root)
       /\ obj = TCXParser.mk (Some tm) (Some hr) (Some ds) (Some sp) (Some ca)
                             (Some lo) (Some al) (Some pa) (Some dev)
       /\ Time.data tm = Some tl /\ Measure.data ds = Some dl /\ Measure.data pa = Some pl
       /\ (0 < List.length tl)%nat
       /\ List.length dl = List.length tl /\ List.length pl = List.length tl
       /\ (forall d, In d dl -> ~ (d == 0)%Q)
       /\ absent_or_aligned (List.length tl) (Measure.data hr)
       /\ absent_or_aligned (List.length tl) (Measure.data sp)
       /\ absent_or_aligned (List.length tl) (Measure.data ca)
       /\ absent_or_aligned (List.length tl) (Measure.data lo)
       /\ absent_or_aligned (List.length tl) (Measure.data al)
       /\ TCXParser.get_device_info root = Ok dev.
Proof.
  unfold TCXParser.__init__. intros H.
  apply bind_Ok in H; destruct H as [[root |] [Hr H]].
  - right.
    apply bind_Ok in H; destruct H as [tm [Htm H]].
    apply bind_Ok in H; destruct H as [hr [Hhr H]].
    apply bind_Ok in H; destruct H as [ds [Hds H]].
    apply bind_Ok in H; destruct H as [sp [Hsp H]].
    apply bind_Ok in H; destruct H as [ca [Hca H]].
    apply bind_Ok in H; destruct H as [lo [Hlo H]].
    apply bind_Ok in H; destruct H as [al [Hal H]].
    apply bind_Ok in H; destruct H as [pa [Hpa H]].
    apply bind_Ok in H; destruct H as [dev [Hdev H]].
    injection H as <-.
    destruct (Pace_of_document _ Htm Hds Hpa)
      as [r0 [rest [d0 [dl [-> [Hdl [Ld [Lt [E Hnz]]]]]]]]].
    assert (Ltl : List.length ((r0 - r0)%Z :: map (fun x => (x - r0)%Z) rest)
                  = List.length (Trackpoints root))
      by (simpl List.length in Lt |- *; rewrite length_map; exact Lt).
    exists root. eexists. exists hr, ds, sp, ca, lo, al, pa, dev.
    exists ((r0 - r0)%Z :: map (fun x => (x - r0)%Z) rest), (d0 :: dl).
    eexists.
    split; [exact Hr |]. split; [reflexivity |]. split; [reflexivity |].
    split; [exact Hdl |]. split; [exact E |].
    unfold timedelta in Ltl |- *. rewrite Ltl.
    split; [rewrite <- Ld; simpl; lia |]. split; [exact Ld |]. split.
    + rewrite length_map, length_combine, Ltl, Ld. apply Nat.min_id.
    + split; [exact Hnz |].
      split; [exact (HeartRate_init_aligned _ Hhr) |].
      split; [exact (Speed_init_aligned _ Hsp) |].
      split; [exact (Cadence_init_aligned _ Hca) |].
      split; [exact (Location_init_aligned _ Hlo) |].
      split; [exact (Altitude_init_aligned _ Hal) | exact Hdev].
  - left. injection H as <-. split; [reflexivity | exact Hr].
Qed.

End Parsed.

Lemma TCXParser_init_Ok_witness :
  TCXParser.__init__ (B := Decimal.builtins) Doc.full_run_files (Some "run.tcx"%string)
  = Ok Doc.full_run_parsed
  /\ ((Doc.full_run_parsed = TCXParser.uninitialised
       /\ TCXParser.get_root Doc.full_run_files (Some "run.tcx"%string) = Ok None)
      \/ exists root tm hr ds sp ca lo al pa dev tl dl pl,
           TCXParser.get_root Doc.full_run_files (Some "run.tcx"%string) = Ok (Some root)
           /\ Doc.full_run_parsed
              = TCXParser.mk (Some tm) (Some hr) (Some ds) (Some sp) (Some ca)
                             (Some lo) (Some al) (Some pa) (Some dev)
           /\ Time.data tm = Some tl /\ Measure.data ds = Some dl
           /\ Measure.data pa = Some pl
           /\ (0 < List.length tl)%nat
           /\ List.length dl = List.length tl /\ List.length pl = List.length tl
           /\ (forall d, In d dl -> ~ (d == 0)%Q)
           /\ absent_or_aligned (List.length tl) (Measure.data hr)
           /\ absent_or_aligned (List.length tl) (Measure.data sp)
           /\ absent_or_aligned (List.length tl) (Measure.data ca)
           /\ absent_or_aligned (List.length tl) (Measure.data lo)
           /\ absent_or_aligned (List.length tl) (Measure.data al)
           /\ TCXParser.get_device_info root = Ok dev).
Proof.
  split; [vm_compute; reflexivity |].
  apply (@TCXParser_init_Ok Decimal.builtins Doc.full_run_files (Some "run.tcx"%string)).
  vm_compute; reflexivity.
Defined.

(** ** Absent channels, asked *)

(** X3.  When no trackpoint carries a channel's field, constructing
    HeartRate, Distance, Speed, Cadence, Location or Altitude succeeds and
    every statistic of the channel returns no result, without raising. *)
Theorem absent_channel_answers {B : Builtins} (root : Element) :
  (findall root "./ns:Lap/ns:Track/ns:Trackpoint/ns:HeartRateBpm/ns:Value" = [] ->
   exists c, HeartRate.__init__ root = Ok c /\ Measure.data c = None
     /\ HeartRate.min c = Ok None /\ HeartRate.max c = Ok None
     /\ HeartRate.average c = Ok None)
  /\ (findall root "./ns:Lap/ns:Track/ns:Trackpoint/ns:DistanceMeters" = [] ->
      exists c, Distance.__init__ root = Ok c /\ Measure.data c = None
        /\ Distance.raw c = Ok None /\ Distance.total c = Ok None)
  /\ (findall root "./ns:Lap/ns:Track/ns:Trackpoint/ns:Extensions/ns3:TPX/ns3:Speed" = [] ->
      exists c, Speed.__init__ root = Ok c /\ Measure.data c = None
        /\ Speed.min c = Ok None /\ Speed.max c = Ok None /\ Speed.average c = Ok None)
  /\ (findall root "./ns:Lap/ns:Track/ns:Trackpoint/ns:Extensions/ns3:TPX/ns3:RunCadence" = [] ->
      exists c, Cadence.__init__ root = Ok c /\ Measure.data c = None
        /\ Cadence.min c = Ok None /\ Cadence.max c = Ok None
        /\ Cadence.average c = Ok None)
  /\ (findall root "./ns:Lap/ns:Track/ns:Trackpoint/ns:Position" = [] ->
      exists c, Location.__init__ root = Ok c /\ Measure.data c = None
        /\ Location.start c = Ok None /\ Location.finish c = Ok None
        /\ Location.latitude c = Ok None /\ Location.longitude c = Ok None)
  /\ (findall root "./ns:Lap/ns:Track/ns:Trackpoint/ns:AltitudeMeters" = [] ->
      exists c, Altitude.__init__ root = Ok c /\ Measure.data c = None
        /\ Altitude.min c = Ok None /\ Altitude.max c = Ok None
        /\ Altitude.average c = Ok None /\ Altitude.change c = Ok None).
Proof.
  destruct (absent_channels root) as [H1 [H2 [H3 [H4 [H5 H6]]]]].
  repeat split; intros H;
    [ exists (Measure.mk None); rewrite (H1 H)
    | exists (Measure.mk None); rewrite (H2 H)
    | exists (Measure.mk None); rewrite (H3 H)
    | exists (Measure.mk None); rewrite (H4 H)
    | exists (Measure.mk None); rewrite (H5 H)
    | exists (Measure.mk None); rewrite (H6 H) ];
    repeat split; reflexivity.
Qed.

Lemma absent_channel_answers_witness :
  exists c, HeartRate.__init__ (B := Decimal.builtins) Doc.two_samples = Ok c
    /\ Measure.data c = None
    /\ HeartRate.min c = Ok None /\ HeartRate.max c = Ok None
    /\ HeartRate.average c = Ok None.
Proof.
  apply (proj1 (@absent_channel_answers Decimal.builtins Doc.two_samples)).
  vm_compute; reflexivity.
Defined.

(** ** Location: both coordinates or the previous pair *)

Section Positions.

Context {B : Builtins}.

Lemma position_cases (data data' : list (Q * Q)) (trkpt : Element) :
  position data trkpt = Ok data' ->
  exists x, data' = data ++ [x]
    /\ ((xpath trkpt "./ns:Position/ns:LatitudeDegrees" = []
         \/ xpath trkpt "./ns:Position/ns:LongitudeDegrees" = []) ->
        exists d l, data = d :: l /\ x = last l d)
    /\ (forall e1 es1 e2 es2,
          xpath trkpt "./ns:Position/ns:LatitudeDegrees" = e1 :: es1 ->
          xpath trkpt "./ns:Position/ns:LongitudeDegrees" = e2 :: es2 ->
          float (text e1) = Ok (fst x) /\ float (text e2) = Ok (snd x)).
Proof.
  intros H.
  assert (Hcarry : (x <- getitem data (-1) ;; Ok (data ++ [x])) = Ok data' ->
                   exists x, data' = data ++ [x] /\ exists d l, data = d :: l /\ x = last l d).
  { intros Hh. destruct data as [| d l].
    - rewrite getitem_nil in Hh; discriminate Hh.
    - rewrite getitem_minus_one in Hh; simpl in Hh. injection Hh as <-.
      exists (last l d); split; [reflexivity |]. exists d, l; split; reflexivity. }
  destruct (xpath trkpt "./ns:Position/ns:LatitudeDegrees") as [| e es] eqn:E.
  - rewrite (position_handler _ _ E) in H.
    destruct (Hcarry H) as [x [-> Hx]]. exists x; split; [reflexivity |].
    split; [intros _; exact Hx | intros e1 es1 e2 es2 F; discriminate F].
  - unfold position in H. rewrite E, getitem_first in H. cbn [bind] in H.
    destruct (float_cases (text e)) as [[lat Hlat] | [Hlat | Hlat]]; rewrite Hlat in H;
      try discriminate H.
    cbn [bind] in H.
    destruct (xpath trkpt "./ns:Position/ns:LongitudeDegrees") as [| e' es'] eqn:E'.
    + rewrite getitem_nil in H. cbn [bind try_except_IndexError] in H.
      destruct (Hcarry H) as [x [-> Hx]]. exists x; split; [reflexivity |].
      split; [intros _; exact Hx | intros e1 es1 e2 es2 _ F; discriminate F].
    + rewrite getitem_first in H. cbn [bind] in H.
      destruct (float_cases (text e')) as [[lon Hlon] | [Hlon | Hlon]]; rewrite Hlon in H;
        try discriminate H.
      cbn [bind try_except_IndexError] in H. injection H as <-.
      exists (lat, lon); split; [reflexivity |]. split.
      * intros [F | F]; discriminate F.
      * intros e1 es1 e2 es2 F1 F2. injection F1 as <- _. injection F2 as <- _.
        split; assumption.
Qed.

(** X4.  A present Location holds, for a trackpoint with both a latitude
    and a longitude, the pair of their [float] values; for a trackpoint
    that lacks either one it repeats the whole pair of the trackpoint
    before it: the two coordinates are never carried separately. *)
Theorem Location_pair_or_previous (root : Element) (data : list (Q * Q))
        (k : nat) (trkpt : Element) :
  Location.get_data root = Ok (Some data) ->
  nth_error (Trackpoints root) k = Some trkpt ->
  exists x,
    nth_error data k = Some x
    /\ (forall e1 es1 e2 es2,
          xpath trkpt "./ns:Position/ns:LatitudeDegrees" = e1 :: es1 ->
          xpath trkpt "./ns:Position/ns:LongitudeDegrees" = e2 :: es2 ->
          float (text e1) = Ok (fst x) /\ float (text e2) = Ok (snd x))
    /\ ((xpath trkpt "./ns:Position/ns:LatitudeDegrees" = []
         \/ xpath trkpt "./ns:Position/ns:LongitudeDegrees" = []) ->
        (0 < k)%nat /\ nth_error data (k - 1) = Some x).
Proof.
  intros H Hk. apply Location_get_data_Some in H.
  destruct (@recording_loop _ position
              (fun trkpt x => forall e1 es1 e2 es2,
                 xpath trkpt "./ns:Position/ns:LatitudeDegrees" = e1 :: es1 ->
                 xpath trkpt "./ns:Position/ns:LongitudeDegrees" = e2 :: es2 ->
                 float (text e1) = Ok (fst x) /\ float (text e2) = Ok (snd x))
              (fun d d' t Hs => match position_cases _ _ Hs with
                                | ex_intro _ x (conj E (conj _ V)) => ex_intro _ x (conj E V)
                                end)
              _ _ _ H _ _ Hk) as [x [Hx Hv]].
  simpl in Hx. exists x. split; [exact Hx |]. split; [exact Hv |].
  intros Hm.
  destruct (@loop_carry _ position
              (fun trkpt => xpath trkpt "./ns:Position/ns:LatitudeDegrees" = []
                            \/ xpath trkpt "./ns:Position/ns:LongitudeDegrees" = [])
              (fun d d' t Hs => match position_cases _ _ Hs with
                                | ex_intro _ x (conj E (conj C _)) => ex_intro _ x (conj E C)
                                end)
              _ _ _ H _ _ Hk Hm) as [v [Hpos [Ha Hb]]].
  simpl in Hpos, Ha, Hb. rewrite Hx in Hb. injection Hb as <-.
  split; [exact Hpos | exact Ha].
Qed.

End Positions.

Lemma Location_pair_or_previous_witness :
  exists x,
    nth_error [(1, 2); (1, 2)]%Q 1 = Some x
    /\ (forall e1 es1 e2 es2,
          xpath (Doc.trackpoint [Doc.distance "50"]) "./ns:Position/ns:LatitudeDegrees"
          = e1 :: es1 ->
          xpath (Doc.trackpoint [Doc.distance "50"]) "./ns:Position/ns:LongitudeDegrees"
          = e2 :: es2 ->
          float (B := Decimal.builtins) (text e1) = Ok (fst x)
          /\ float (B := Decimal.builtins) (text e2) = Ok (snd x))
    /\ ((xpath (Doc.trackpoint [Doc.distance "50"]) "./ns:Position/ns:LatitudeDegrees" = []
         \/ xpath (Doc.trackpoint [Doc.distance "50"]) "./ns:Position/ns:LongitudeDegrees"
            = []) ->
        (0 < 1)%nat /\ nth_error [(1, 2); (1, 2)]%Q (1 - 1) = Some x).
Proof.
  apply (@Location_pair_or_previous Decimal.builtins Doc.position_gap
           [(1, 2); (1, 2)]%Q 1%nat (Doc.trackpoint [Doc.distance "50"])).
  - vm_compute; reflexivity.
  - reflexivity.
Defined.

(** ** Pace against duration and total distance *)

Lemma last_combine {A C : Type} (l1 : list A) (l2 : list C) (a : A) (c : C) :
  List.length l1 = List.length l2 ->
  last (combine l1 l2) (a, c) = (last l1 a, last l2 c).
Proof.
  revert l2 a c; induction l1 as [| x l1 IH]; intros [| y l2] a c L;
    try discriminate L; [reflexivity |].
  injection L as L.
  change (combine (x :: l1) (y :: l2)) with ((x, y) :: combine l1 l2).
  rewrite !last_cons_same. apply IH, L.
Qed.

(** X5.  [Pace.average] is the pace over the whole activity: the seconds
    field of [Time.duration] in minutes, over [Distance.total] in
    kilometres. *)
Theorem Pace_average_overall {B : Builtins} (root : Element) (tm : Time.t)
        (ds : Distance.t) (p : Pace.t) :
  Time.__init__ root = Ok tm ->
  Distance.__init__ root = Ok ds ->
  Pace.__init__ tm ds = Ok p ->
  exists dur tot avg,
    Time.duration tm = Ok (Some dur) /\ Distance.total ds = Ok (Some tot)
    /\ Pace.average p = Ok (Some avg)
    /\ (avg == (inject_Z (timedelta_seconds dur) / 60) / (tot / 1000))%Q.
Proof.
  intros Ht Hd Hp.
  destruct (Pace_of_document _ Ht Hd Hp)
    as [r0 [rest [d0 [dl [-> [Hdl [Ld [Lt [E _]]]]]]]]].
  assert (L : List.length (map (fun x => (x - r0)%Z) rest) = List.length dl)
    by (simpl List.length in Ld, Lt; rewrite length_map; congruence).
  exists (last (map (fun x => (x - r0)%Z) rest) (r0 - r0)%Z), (last dl d0).
  exists (pace_at (r0 - r0)%Z (last (map (fun x => (x - r0)%Z) rest) (r0 - r0)%Z)
                  (last dl d0)).
  unfold Time.duration, Distance.total, Pace.average.
  rewrite Hdl, E. cbn [Time.data combine map].
  unfold timedelta in *. rewrite !getitem_minus_one.
  split; [reflexivity |]. split; [reflexivity |]. split.
  - rewrite (last_map (fun td : Z * Q => pace_at (r0 - r0)%Z (fst td) (snd td))
                      (combine (map (fun x => (x - r0)%Z) rest) dl) ((r0 - r0)%Z, d0)).
    rewrite (last_combine _ _ _ _ L). reflexivity.
  - unfold pace_at. rewrite Z.sub_diag, Z.sub_0_r. reflexivity.
Qed.

Lemma Pace_average_overall_witness :
  exists dur tot avg,
    Time.duration Doc.two_samples_time = Ok (Some dur)
    /\ Distance.total Doc.two_samples_distance = Ok (Some tot)
    /\ Pace.average (Measure.mk (Some [pace_at 0%Z 0%Z 20; pace_at 0%Z 10000000%Z 50]))
       = Ok (Some avg)
    /\ (avg == (inject_Z (timedelta_seconds dur) / 60) / (tot / 1000))%Q.
Proof.
  apply (@Pace_average_overall Decimal.builtins Doc.two_samples).
  - vm_compute; reflexivity.
  - vm_compute; reflexivity.
  - reflexivity.
Defined.

(** X11.  The names are inverted: whenever [Pace.min] and [Pace.max] both
    return a value, the one from [max] is strictly positive and not larger
    than the one from [min]. *)
Theorem Pace_max_below_min (p : Pace.t) (a b : Q) :
  Pace.min p = Ok (Some a) -> Pace.max p = Ok (Some b) ->
  (0 < b)%Q /\ (b <= a)%Q.
Proof.
  unfold Pace.min, Pace.max.
  destruct (Measure.data p) as [[| x l] |]; try discriminate.
  intros Ha Hb.
  apply bind_Ok in Ha; destruct Ha as [a' [Ha Ea]]. injection Ea as ->.
  cbv zeta in Hb. apply bind_Ok in Hb; destruct Hb as [b' [Hb Eb]]. injection Eb as ->.
  destruct (@py_max_spec (x :: l) ltac:(discriminate)) as [m [Em [_ Hm]]].
  rewrite Em in Ha. injection Ha as ->.
  destruct (filter (fun x => Qltb 0 x) (x :: l)) as [| y li] eqn:F; [discriminate Hb |].
  destruct (@py_min_spec (y :: li) ltac:(discriminate)) as [n [En [Hin _]]].
  rewrite En in Hb. injection Hb as ->.
  rewrite <- F in Hin. apply filter_In in Hin. destruct Hin as [Hin Hpos].
  split; [apply Qltb_lt, Hpos | apply Hm, Hin].
Qed.

Lemma Pace_max_below_min_witness : (0 < 10 # 3)%Q /\ (10 # 3 <= 10 # 3)%Q.
Proof.
  apply (@Pace_max_below_min (Measure.mk (Some [0; 10 # 3]%Q)) (10 # 3)%Q (10 # 3)%Q);
    reflexivity.
Defined.

(** ** The extension test of get_root *)







